(** * The lead pipeline of [src/crm_pipeline.py], embedded and checked

    The pipeline threads one mutable dictionary per lead through four
    stages that each consult a language model, plus an SMTP delivery in
    between, and finally aggregates the finished rows into a report.

    The embedding follows the Python text:
    - a lead is a [gmap string pyval] (a [dict] with string keys);
    - [str] values are Rocq strings whose characters are the code points
      0..255, and the [str] methods used by the code ([strip],
      [splitlines], [split], [lower], [isdigit], ...) are modelled on that
      range;
    - the language model, the SMTP server, the random generator and the
      interpreter limit on [int(str)] form a [Backend] over an abstract
      world state, and the files [main] writes form a [Files] over it;
    - what pandas computes in double precision is left open, as a
      [Pandas];
    - a stage is a computation in a state-and-exception monad whose state
      holds the world and the dictionary being mutated, so that whatever a
      stage wrote before raising is still there in the handler. *)

From stdpp Require Import base numbers option list strings gmap.
From Stdlib Require Import Ascii ZArith QArith Qcanon Lia DecimalString.

Local Open Scope Z_scope.
Local Open Scope stdpp_scope.

(** ** Python values and exceptions *)

(** The values a cell of a lead can hold here: [None] (also what [.get]
    gives for an absent key), the float [nan] pandas puts in an empty CSV
    cell, integers, and strings. *)
Inductive pyval : Type :=
  | VNone
  | VNaN
  | VInt (z : Z)
  | VStr (s : string).

Global Instance pyval_eq_dec : EqDecision pyval.
Proof. solve_decision. Defined.

(** An exception instance: its class name and [str(e)]. Only subclasses of
    [Exception] are modelled. *)
Record exn : Type := Exn { exn_type : string; exn_detail : string }.

Inductive result (A : Type) : Type :=
  | Ok (a : A)
  | Raise (e : exn).
Arguments Ok {A} a.
Arguments Raise {A} e.

Definition ValueError (msg : string) : exn := Exn "ValueError" msg.
Definition IndexError (msg : string) : exn := Exn "IndexError" msg.
Definition KeyError (msg : string) : exn := Exn "KeyError" msg.
Definition TypeError (msg : string) : exn := Exn "TypeError" msg.

Module Py.

(** *** Characters *)

Definition code (c : ascii) : N := N_of_ascii c.

(** [str.isspace] on one character (code points below 256). *)
Definition isspace (c : ascii) : bool :=
  bool_decide (code c ∈ [9; 10; 11; 12; 13; 28; 29; 30; 31; 32; 133; 160]%N).

(** The line boundaries of [str.splitlines] below 256. *)
Definition islinebreak (c : ascii) : bool :=
  bool_decide (code c ∈ [10; 11; 12; 13; 28; 29; 30; 133]%N).

(** [str.isdigit]: the ten decimal digits and the superscripts 2, 3, 1. *)
Definition isdigit (c : ascii) : bool :=
  bool_decide (48 ≤ code c ≤ 57)%N || bool_decide (code c ∈ [178; 179; 185]%N).

(** The characters [int] reads as decimal digits. *)
Definition isdecimal (c : ascii) : bool := bool_decide (48 ≤ code c ≤ 57)%N.

Definition lower_char (c : ascii) : ascii :=
  if bool_decide (65 ≤ code c ≤ 90)%N
     || (bool_decide (192 ≤ code c ≤ 222)%N && negb (bool_decide (code c = 215%N)))
  then ascii_of_N (code c + 32) else c.

(** *** [str] methods *)

Fixpoint lower (s : string) : string :=
  match s with
  | "" => ""
  | String c s' => String (lower_char c) (lower s')
  end.

Fixpoint lstrip (s : string) : string :=
  match s with
  | "" => ""
  | String c s' => if isspace c then lstrip s' else s
  end.

Fixpoint rstrip (s : string) : string :=
  match s with
  | "" => ""
  | String c s' =>
      match rstrip s' with
      | "" => if isspace c then "" else String c ""
      | r => String c r
      end
  end.

Definition strip (s : string) : string := rstrip (lstrip s).

Definition startswith (s p : string) : bool := String.prefix p s.

Fixpoint drop (n : nat) (s : string) : string :=
  match n, s with
  | S n', String _ s' => drop n' s'
  | _, _ => s
  end.

(** [sub in s] *)
Fixpoint contains (sub s : string) : bool :=
  String.prefix sub s
  || match s with
     | "" => false
     | String _ s' => contains sub s'
     end.

(** [s.split(sep, 1)] for a non-empty [sep]: one or two pieces. *)
Fixpoint split1 (sep s : string) : list string :=
  if String.prefix sep s then [""; drop (String.length sep) s]
  else match s with
       | "" => [s]
       | String c s' =>
           match split1 sep s' with
           | [a; b] => [String c a; b]
           | _ => [s]
           end
       end.

(** [s.splitlines()]: no empty last line, and CR LF is one boundary. *)
Fixpoint splitlines (s : string) : list string :=
  match s with
  | "" => []
  | String c s' =>
      if islinebreak c then
        "" :: match s' with
              | String c' s'' =>
                  if bool_decide (code c = 13%N) && bool_decide (code c' = 10%N)
                  then splitlines s'' else splitlines s'
              | "" => []
              end
      else match splitlines s' with
           | [] => [String c ""]
           | l :: ls => String c l :: ls
           end
  end.

(** [s.split()]: the maximal runs of non-whitespace characters. *)
Fixpoint split_ws (s : string) : list string :=
  match s with
  | "" => []
  | String c s' =>
      if isspace c then split_ws s'
      else match s' with
           | "" => [String c ""]
           | String c' _ =>
               if isspace c' then String c "" :: split_ws s'
               else match split_ws s' with
                    | l :: ls => String c l :: ls
                    | [] => [String c ""]
                    end
           end
  end.

(** [''.join(filter(pred, s))] *)
Fixpoint filter_chars (p : ascii → bool) (s : string) : string :=
  match s with
  | "" => ""
  | String c s' => if p c then String c (filter_chars p s') else filter_chars p s'
  end.

Fixpoint forallb_chars (p : ascii → bool) (s : string) : bool :=
  match s with
  | "" => true
  | String c s' => p c && forallb_chars p s'
  end.

Fixpoint decimal_value (acc : Z) (s : string) : Z :=
  match s with
  | "" => acc
  | String c s' => decimal_value (10 * acc + (Z.of_N (code c) - 48)) s'
  end.

(** [int(s)] for a string [s] of [isdigit] characters; [None] stands for
    the [ValueError] it raises: on the empty string, on a superscript
    digit, and on more than [max_digits] digits when that interpreter
    limit is set (0 switches it off, 4300 is CPython's default). *)
Definition int_of_digits (max_digits : nat) (s : string) : option Z :=
  if bool_decide (s = "") then None
  else if negb (forallb_chars isdecimal s) then None
  else if bool_decide (max_digits ≠ 0%nat ∧ (max_digits < String.length s)%nat) then None
  else Some (decimal_value 0 s).

(** [a, b = xs] *)
Definition unpack2 (xs : list string) : result (string * string) :=
  match xs with
  | [a; b] => Ok (a, b)
  | [] => Raise (ValueError "not enough values to unpack (expected 2, got 0)")
  | [_] => Raise (ValueError "not enough values to unpack (expected 2, got 1)")
  | _ => Raise (ValueError "too many values to unpack (expected 2)")
  end.

(** [xs[0]] *)
Definition item0 {A : Type} (xs : list A) : result A :=
  match xs with
  | x :: _ => Ok x
  | [] => Raise (IndexError "list index out of range")
  end.

(** *** Values *)

Definition str (v : pyval) : string :=
  match v with
  | VNone => "None"
  | VNaN => "nan"
  | VInt z => NilZero.string_of_int (Z.to_int z)
  | VStr s => s
  end.

(** Truth value, as tested by [or]. *)
Definition truthy (v : pyval) : bool :=
  match v with
  | VNone => false
  | VNaN => true
  | VInt z => negb (z =? 0)
  | VStr s => negb (bool_decide (s = ""))
  end.

(** [a or b] *)
Definition or (a b : pyval) : pyval := if truthy a then a else b.

(** [v >= n] for an [int] literal [n] *)
Definition ge_int (v : pyval) (n : Z) : result bool :=
  match v with
  | VInt z => Ok (n <=? z)
  | VNaN => Ok false
  | VStr _ => Raise (TypeError "'>=' not supported between instances of 'str' and 'int'")
  | VNone => Raise (TypeError "'>=' not supported between instances of 'NoneType' and 'int'")
  end.

(** [v == n] for an [int] literal [n] *)
Definition eq_int (v : pyval) (n : Z) : bool :=
  match v with
  | VInt z => z =? n
  | _ => false
  end.

End Py.

(** ** The outside world and the monad of a stage *)

(** A lead record: the [dict] that every stage mutates. *)
Abbreviation Lead := (gmap string pyval).

(** What the program cannot see into: the completion service behind
    [LLMClient.generate], the SMTP hand-off done by [send_email], the
    generator behind [random.random], each a transition on a world state
    [W]; and the interpreter's digit limit for [int(str)]. A draw is a
    rational of [0, 1): the draws of [random.random] are multiples of
    2^-53, and such a number is below the double nearest to 0.8 exactly
    when it is below 8/10. *)
Record Backend (W : Type) : Type := {
  generate : string → nat → W → result string * W;
  send_email : string → Z → string → pyval → pyval → pyval → W → result () * W;
  random : W → Qc * W;
  int_max_str_digits : nat;
}.
Arguments generate {W} _ _ _ _.
Arguments send_email {W} _ _ _ _ _ _ _ _.
Arguments random {W} _ _.
Arguments int_max_str_digits {W} _.

Record St (W : Type) : Type := MkSt { world : W; lead : Lead }.
Arguments MkSt {W} _ _.
Arguments world {W} _.
Arguments lead {W} _.

(** A computation that may raise; the state reached so far survives. *)
Definition M (W A : Type) : Type := St W → result A * St W.

Global Instance M_ret {W} : MRet (M W) := λ A a st, (Ok a, st).
Global Instance M_bind {W} : MBind (M W) := λ A B f m st,
  match m st with
  | (Ok a, st') => f a st'
  | (Raise e, st') => (Raise e, st')
  end.

Section Monad.
Context {W : Type}.

Definition lift {A} (r : result A) : M W A := λ st, (r, st).

(** [try: body except Exception as e: handler(e)] *)
Definition try_except {A} (body : M W A) (handler : exn → M W A) : M W A :=
  λ st, match body st with
        | (Raise e, st') => handler e st'
        | r => r
        end.

(** A value computed from the dictionary as it is now. *)
Definition reads {A} (f : Lead → A) : M W A := λ st, (Ok (f (lead st)), st).

(** [lead.get(k)] *)
Definition get (k : string) : M W pyval :=
  λ st, (Ok (default VNone (lead st !! k)), st).

(** [lead.get(k, d)] *)
Definition get_default (k : string) (d : pyval) : M W pyval :=
  λ st, (Ok (default d (lead st !! k)), st).

(** [lead[k]] *)
Definition getitem (k : string) : M W pyval :=
  λ st, match lead st !! k with
        | Some v => (Ok v, st)
        | None => (Raise (KeyError ("'" +:+ k +:+ "'")), st)
        end.

(** [lead[k] = v] *)
Definition setitem (k : string) (v : pyval) : M W () :=
  λ st, (Ok (), MkSt (world st) (<[k := v]> (lead st))).

(** A call into the world. *)
Definition call {A} (f : W → A * W) : M W A :=
  λ st, let '(a, w) := f (world st) in (Ok a, MkSt w (lead st)).

Definition call_raising {A} (f : W → result A * W) : M W A :=
  λ st, let '(r, w) := f (world st) in (r, MkSt w (lead st)).

End Monad.

(** [for x in xs: acc = body(acc, x)], stopping at the first exception. *)
Fixpoint for_each {S A : Type} (body : S → A → result S) (acc : S) (xs : list A) : result S :=
  match xs with
  | [] => Ok acc
  | x :: xs' =>
      match body acc x with
      | Ok acc' => for_each body acc' xs'
      | Raise e => Raise e
      end
  end.

Definition NL : string := String "010" "".

(** ** The parsing done by the stages *)

(** Body of the loop of [enrich_lead]. *)
Definition enrich_line (parsed : gmap string string) (line : string)
  : result (gmap string string) :=
  if Py.contains ":" line then
    match Py.unpack2 (Py.split1 ":" line) with
    | Ok (k, v) => Ok (<[Py.strip k := Py.strip v]> parsed)
    | Raise e => Raise e
    end
  else Ok parsed.

Definition enrich_parse (out : string) : result (gmap string string) :=
  for_each enrich_line ∅ (Py.splitlines out).

(** [parsed.get(k)] and [parsed.get(k, d)] *)
Definition parsed_get (parsed : gmap string string) (k : string) : pyval :=
  match parsed !! k with Some v => VStr v | None => VNone end.
Definition parsed_get_default (parsed : gmap string string) (k d : string) : pyval :=
  VStr (default d (parsed !! k)).

(** [line.lower().strip().startswith(word)] *)
Definition line_starts (word line : string) : bool :=
  Py.startswith (Py.strip (Py.lower line)) word.

(** [int(''.join(filter(str.isdigit, line)))], [None] when it raises. *)
Definition line_int (max_digits : nat) (line : string) : option Z :=
  Py.int_of_digits max_digits (Py.filter_chars Py.isdigit line).

(** Body of the loop of [score_lead], on the pair [(priority, reason)]. *)
Definition score_line (max_digits : nat) (acc : Z * string) (line : string)
  : result (Z * string) :=
  let '(priority, reason) := acc in
  let priority :=
    if line_starts "priority" line then
      match line_int max_digits line with
      | Some n => n
      | None => 3
      end
    else priority in
  if line_starts "reason" line then
    match Py.unpack2 (Py.split1 ":" line) with
    | Ok (_, r) => Ok (priority, Py.strip r)
    | Raise e => Raise e
    end
  else Ok (priority, reason).

Definition score_parse (max_digits : nat) (out : string) : result (Z * string) :=
  for_each (score_line max_digits) (3, "") (Py.splitlines out).

(** [xs[1]] *)
Definition item1 {A : Type} (xs : list A) : result A :=
  match xs with
  | _ :: x :: _ => Ok x
  | _ => Raise (IndexError "list index out of range")
  end.

(** The branches of [draft_email]: the pair [(subject, body)]. *)
Definition draft_parse (out : string) (first_name : pyval) : result (string * string) :=
  if Py.contains "Subject:" out then
    match item1 (Py.split1 "Subject:" out) with
    | Ok parts =>
        if Py.contains "Body:" parts then
          match Py.unpack2 (Py.split1 "Body:" parts) with
          | Ok (subj, bod) => Ok (Py.strip subj, Py.strip bod)
          | Raise e => Raise e
          end
        else Ok (Py.strip parts, "")
    | Raise e => Raise e
    end
  else Ok ("Quick note for " +:+ Py.str first_name, Py.strip out).

(** [label.splitlines()[0].strip().split()[0]] *)
Definition label_parse (label : string) : result string :=
  match Py.item0 (Py.splitlines label) with
  | Ok line => Py.item0 (Py.split_ws (Py.strip line))
  | Raise e => Raise e
  end.

(** ** The prompts *)

(** [lead.get(k)] on a dictionary *)
Definition lead_get (l : Lead) (k : string) : pyval := default VNone (l !! k).

Definition enrich_prompt (l : Lead) : string :=
  "You are a helpful assistant that enriches a sales lead." +:+ NL
  +:+ "Known fields: first_name=" +:+ Py.str (lead_get l "first_name")
  +:+ ", last_name=" +:+ Py.str (lead_get l "last_name")
  +:+ ", email=" +:+ Py.str (lead_get l "email")
  +:+ ", company=" +:+ Py.str (lead_get l "company")
  +:+ ", title=" +:+ Py.str (lead_get l "title")
  +:+ ", industry=" +:+ Py.str (lead_get l "industry")
  +:+ ", location=" +:+ Py.str (lead_get l "location") +:+ "." +:+ NL
  +:+ "Fill any missing fields (company, title, industry, location) with short plausible values if blank, and then suggest a concise buyer persona label (one or two words), and a 1-2 sentence persona description." +:+ NL
  +:+ "Return output as lines in the format: company:..., title:..., industry:..., location:..., persona:..., persona_desc:..." +:+ NL.

Definition score_prompt (l : Lead) : string :=
  "You are an expert sales analyst. Given this lead, provide a numeric priority 1-5 (5 highest) and one short reason." +:+ NL
  +:+ "Lead: first_name=" +:+ Py.str (lead_get l "first_name")
  +:+ ", last_name=" +:+ Py.str (lead_get l "last_name")
  +:+ ", company=" +:+ Py.str (lead_get l "company")
  +:+ ", title=" +:+ Py.str (lead_get l "title")
  +:+ ", industry=" +:+ Py.str (lead_get l "industry")
  +:+ ", persona=" +:+ Py.str (lead_get l "persona") +:+ "." +:+ NL
  +:+ "Return: priority: <1-5>" +:+ NL +:+ "reason: <one sentence>".

Definition draft_prompt (l : Lead) : string :=
  "Write a short, personalized outreach email (subject + body) in a friendly professional tone. Keep it <100 words in body. " +:+ NL
  +:+ "Lead: " +:+ Py.str (lead_get l "first_name") +:+ " " +:+ Py.str (lead_get l "last_name")
  +:+ ", title=" +:+ Py.str (lead_get l "title")
  +:+ ", company=" +:+ Py.str (lead_get l "company")
  +:+ ", persona=" +:+ Py.str (lead_get l "persona") +:+ "." +:+ NL
  +:+ "Include a single short sentence clear call-to-action." +:+ NL
  +:+ "Return exactly as:" +:+ NL +:+ "Subject: <subject line>" +:+ NL +:+ NL
  +:+ "Body: <email body>".

Definition reply_prompt (l : Lead) : string :=
  "You are the prospect receiving this email. Write a short reply (1-3 sentences) that reflects a realistic reaction: interested, maybe later, or not interested." +:+ NL
  +:+ "Email subject: " +:+ Py.str (lead_get l "email_subject") +:+ NL
  +:+ "Email body: " +:+ Py.str (lead_get l "email_body") +:+ NL
  +:+ "Persona: " +:+ Py.str (lead_get l "persona") +:+ NL.

Definition class_prompt (reply : string) : string :=
  "Classify the following reply into one of: Interested, Maybe, Not Interested. Return only the one-word label." +:+ NL
  +:+ "Reply: " +:+ reply +:+ NL.

(** The command-line arguments that reach the loop of [main]. *)
Record Args : Type :=
  { out : string; smtp_host : string; smtp_port : Z; from_addr : string }.

(** ** The stages *)

Section Stages.
Context {W : Type} (B : Backend W).

(** [llm.generate(prompt)], with the default budget of 128 tokens. *)
Definition llm_generate (prompt : string) : M W string :=
  call_raising (generate B prompt 128).

(** The returned dictionary is the argument itself, mutated: the stages
    are computations on the lead held in the state. *)
Definition enrich_lead : M W () :=
  prompt ← reads enrich_prompt;
  out ← llm_generate prompt;
  parsed ← lift (enrich_parse out);
  a ← get "company"; b ← get "company";
  setitem "company" (Py.or (Py.or (Py.or a (parsed_get parsed "company")) b) (VStr ""));;
  a ← get "title";
  setitem "title" (Py.or (Py.or a (parsed_get parsed "title")) (VStr ""));;
  a ← get "industry";
  setitem "industry" (Py.or (Py.or a (parsed_get parsed "industry")) (VStr ""));;
  a ← get "location";
  setitem "location" (Py.or (Py.or a (parsed_get parsed "location")) (VStr ""));;
  setitem "persona" (parsed_get_default parsed "persona" "Unknown");;
  setitem "persona_desc" (parsed_get_default parsed "persona_desc" "").

Definition score_lead : M W () :=
  prompt ← reads score_prompt;
  out ← llm_generate prompt;
  '(priority, reason) ← lift (score_parse (int_max_str_digits B) out);
  setitem "priority" (VInt priority);;
  setitem "priority_reason" (VStr reason).

Definition draft_email : M W () :=
  prompt ← reads draft_prompt;
  out ← llm_generate prompt;
  first_name ← get "first_name";
  '(subject, body) ← lift (draft_parse out first_name);
  setitem "email_subject" (VStr subject);;
  setitem "email_body" (VStr body).

(** The [elif] of [simulate_and_classify_responses]. *)
Definition simulate_elif : M W bool :=
  priority ← get_default "priority" (VInt 3);
  if Py.eq_int priority 3 then
    r ← call (random B); mret (bool_decide (r < Q2Qc (25 # 100))%Qc)
  else mret false.

Definition simulate_and_classify_responses : M W () :=
  priority ← get_default "priority" (VInt 3);
  high ← lift (Py.ge_int priority 4);
  simulate ←
    (if high : bool then
       r ← call (random B);
       if bool_decide (r < Q2Qc (8 # 10))%Qc then mret true else simulate_elif
     else simulate_elif);
  if simulate : bool then
    prompt_reply ← reads reply_prompt;
    reply ← llm_generate prompt_reply;
    label ← llm_generate (class_prompt reply);
    label_clean ← lift (label_parse label);
    setitem "status" (VStr "replied");;
    setitem "response_text" (VStr reply);;
    setitem "response_category" (VStr label_clean)
  else
    setitem "status" (VStr "no_response");;
    setitem "response_text" (VStr "");;
    setitem "response_category" (VStr "No Response").

(** ** The orchestrator *)

(** The inner [try] of [main]: delivery, with its own handler. *)
Definition deliver (args : Args) : M W () :=
  try_except
    (to_addr ← get "email";
     subject ← getitem "email_subject";
     body ← getitem "email_body";
     call_raising (send_email B (smtp_host args) (smtp_port args) (from_addr args)
                     to_addr subject body);;
     setitem "status" (VStr "sent"))
    (λ e, setitem "status" (VStr ("send_error: " +:+ exn_detail e))).

(** The body of the outer [try]. *)
Definition stages (args : Args) : M W () :=
  enrich_lead;; score_lead;; draft_email;; deliver args;;
  simulate_and_classify_responses.

(** One iteration of the loop, up to [processed.append(lead)]. *)
Definition process_lead (args : Args) : M W () :=
  try_except (stages args)
    (λ e, setitem "status" (VStr ("error: " +:+ exn_detail e))).

(** The loop of [main]: the list [processed] and the world after it, or
    the exception that escapes. *)
Fixpoint process_rows (args : Args) (rows : list Lead) (w : W)
  : result (list Lead) * W :=
  match rows with
  | [] => (Ok [], w)
  | row :: rest =>
      match process_lead args (MkSt w row) with
      | (Ok _, st) =>
          match process_rows args rest (world st) with
          | (Ok processed, w') => (Ok (lead st :: processed), w')
          | (Raise e, w') => (Raise e, w')
          end
      | (Raise e, st) => (Raise e, world st)
      end
  end.

End Stages.

(** ** Tables and the report *)

(** A pandas table: its column labels and its rows. A cell that a row
    does not define reads as [nan], which is how [pd.DataFrame] fills the
    keys a record lacks. The order of the columns plays no role below. *)
Record DataFrame : Type := { columns : list string; rows : list Lead }.

(** [df[col] = value] *)
Definition set_column (col : string) (value : pyval) (df : DataFrame) : DataFrame :=
  {| columns := if bool_decide (col ∈ columns df) then columns df else columns df ++ [col];
     rows := (λ row, <[col := value]> row) <$> rows df |}.

(** [df.to_dict(orient='records')]: every record has every column. *)
Definition to_dict_records (df : DataFrame) : list Lead :=
  (λ row : Lead, list_to_map ((λ c, (c, default VNaN (row !! c))) <$> columns df)) <$> rows df.

(** [pd.DataFrame(records)]: the columns are the keys met in the records. *)
Definition DataFrame_of_records (records : list Lead) : DataFrame :=
  {| columns := remove_dups (records ≫= (λ r : Lead, elements (dom r)));
     rows := records |}.

(** [df[col]] *)
Definition column (df : DataFrame) (col : string) : result (list pyval) :=
  if bool_decide (col ∈ columns df)
  then Ok ((λ row : Lead, default VNaN (row !! col)) <$> rows df)
  else Raise (KeyError ("'" +:+ col +:+ "'")).

Definition output_columns : list string :=
  ["persona"; "persona_desc"; "priority"; "priority_reason"; "email_subject";
   "email_body"; "status"; "response_text"; "response_category"].

(** The loop of [main] that makes sure the output columns exist. *)
Definition ensure_columns (df : DataFrame) : DataFrame :=
  foldl (λ df col, if bool_decide (col ∈ columns df) then df else set_column col (VStr "") df)
        df output_columns.

(** A float: [nan], or one of the other values, of a type [F] that
    stands for them. *)
Inductive pyfloat (F : Type) : Type :=
  | FNaN
  | Fin (x : F).
Arguments FNaN {F}.
Arguments Fin {F} x.

(** [==] between a cell and a string *)
Definition cell_eq_str (v : pyval) (s : string) : bool :=
  match v with
  | VStr s' => bool_decide (s' = s)
  | _ => false
  end.

(** [series.isin(values)] on one cell *)
Definition cell_isin (values : list string) (v : pyval) : bool :=
  existsb (cell_eq_str v) values.

(** [boolean_series.sum()] *)
Definition count_true (bs : list bool) : nat := length (filter (λ b, b = true) bs).

(** [series.fillna('Unknown')] on one cell *)
Definition fillna_unknown (v : pyval) : pyval :=
  match v with
  | VNaN | VNone => VStr "Unknown"
  | _ => v
  end.

(** [series.value_counts().to_dict()]: each distinct value with the number
    of its occurrences. The order in which pandas lists them is that of
    [counts_order] below. *)
Definition value_counts (cells : list pyval) : list (pyval * nat) :=
  (λ v, (v, length (filter (λ c, c = v) cells))) <$> remove_dups cells.

(** [persona_counts] of [generate_report]: the column [persona], or an
    empty series when the table has none. *)
Definition persona_counts (df : DataFrame) : list (pyval * nat) :=
  match column df "persona" with
  | Ok cells => value_counts (fillna_unknown <$> cells)
  | Raise _ => value_counts []
  end.

(** What pandas and the formatting of floats decide, and the model leaves
    open. The doubles other than [nan] are the values of [float64].
    [int_numeric] is how [pd.to_numeric] reads an integer cell, a rounding
    to double precision, or the exception of an integer that is out of
    range; [str_numeric] is the number it parses a non-empty string to, if
    any. [float_mean] is [mean] on the values of a series when there is
    one: the order of the additions and their rounding are those of
    pandas. [format_2f] renders a float with two decimals, and
    [counts_order] is the order in which [value_counts] lists its keys. *)
Record Pandas : Type := {
  float64 : Type;
  zero : float64;
  int_numeric : Z → result float64;
  str_numeric : string → option float64;
  float_mean : list float64 → pyfloat float64;
  format_2f : pyfloat float64 → string;
  counts_order : list (pyval * nat) → list (pyval * nat);
}.

(** The files [main] writes, each write a transition on the world that
    may raise: [out_df.to_csv(path, index=False)],
    [os.makedirs(path, exist_ok=True)], and [open(path, 'w')] followed by
    the [write] of each of the given strings. *)
Record Files (W : Type) : Type := {
  to_csv : string → DataFrame → W → result () * W;
  makedirs : string → W → result () * W;
  write_file : string → list string → W → result () * W;
}.
Arguments to_csv {W} _ _ _ _.
Arguments makedirs {W} _ _ _.
Arguments write_file {W} _ _ _ _.

(** The statistics of a campaign. *)
Record Summary (F : Type) : Type :=
  { total : nat; sent : nat; replied : nat; avg_priority : pyfloat F }.
Arguments total {F} _.
Arguments sent {F} _.
Arguments replied {F} _.
Arguments avg_priority {F} _.

(** The value of a float that is not [nan]. *)
Definition not_nan {F} (x : pyfloat F) : option F :=
  match x with
  | Fin y => Some y
  | FNaN => None
  end.

Section Report.
Context {W : Type} (P : Pandas) (B : Backend W) (D : Files W).

(** [pd.to_numeric(..., errors='coerce')] on one cell: what is not a
    number, the empty string among it, becomes [nan]. *)
Definition to_numeric (v : pyval) : result (pyfloat (float64 P)) :=
  match v with
  | VInt z =>
      match int_numeric P z with
      | Ok x => Ok (Fin x)
      | Raise e => Raise e
      end
  | VStr s =>
      Ok (if bool_decide (s = "") then FNaN
          else match str_numeric P s with
               | Some x => Fin x
               | None => FNaN
               end)
  | VNaN | VNone => Ok FNaN
  end.

(** [pd.to_numeric] on a column *)
Fixpoint to_numeric_series (cells : list pyval) : result (list (pyfloat (float64 P))) :=
  match cells with
  | [] => Ok []
  | v :: rest =>
      match to_numeric v with
      | Ok x =>
          match to_numeric_series rest with
          | Ok xs => Ok (x :: xs)
          | Raise e => Raise e
          end
      | Raise e => Raise e
      end
  end.

(** [series.mean(skipna=True)] on a float series *)
Definition mean_skipna (xs : list (pyfloat (float64 P))) : pyfloat (float64 P) :=
  match omap not_nan xs with
  | [] => FNaN
  | ys => float_mean P ys
  end.

(** [total], [sent] and [replied] of [generate_report] *)
Definition report_counts (df : DataFrame) : result (nat * nat * nat) :=
  match column df "status" with
  | Ok status =>
      Ok (length (rows df),
          count_true (cell_isin ["sent"; "replied"] <$> status),
          count_true ((λ v, cell_eq_str v "replied") <$> status))
  | Raise e => Raise e
  end.

(** The [if 'priority' in df.columns] of [generate_report]. *)
Definition report_avg_priority (df : DataFrame) : result (pyfloat (float64 P)) :=
  match column df "priority" with
  | Ok cells =>
      match to_numeric_series cells with
      | Ok priorities =>
          Ok (if negb (bool_decide (priorities = []))
              then mean_skipna priorities else Fin (zero P))
      | Raise e => Raise e
      end
  | Raise _ => Ok (Fin (zero P))
  end.

(** [generate_report] up to [avg_priority]. *)
Definition report_summary (df : DataFrame) : result (Summary (float64 P)) :=
  match report_counts df with
  | Ok (total, sent, replied) =>
      match report_avg_priority df with
      | Ok avg => Ok {| total := total; sent := sent; replied := replied;
                        avg_priority := avg |}
      | Raise e => Raise e
      end
  | Raise e => Raise e
  end.

(** [str] of a count *)
Definition str_nat (n : nat) : string := Py.str (VInt (Z.of_nat n)).

(** The text [summary] of [generate_report]. *)
Definition summary_text (s : Summary (float64 P)) (personas : list (pyval * nat))
  : string :=
  "Campaign summary:" +:+ NL +:+ NL
  +:+ "Total leads: " +:+ str_nat (total s) +:+ NL
  +:+ "Sent: " +:+ str_nat (sent s) +:+ NL
  +:+ "Replied: " +:+ str_nat (replied s) +:+ NL
  +:+ "Average priority: " +:+ format_2f P (avg_priority s) +:+ NL +:+ NL
  +:+ "Persona breakdown:" +:+ NL
  +:+ foldl (λ text pc, text +:+ "- " +:+ Py.str pc.1 +:+ ": " +:+ str_nat pc.2 +:+ NL)
        "" personas.

Definition insights_prompt (summary : string) : string :=
  "You are a smart sales analyst. Given the campaign summary below, write a short markdown report (3-6 paragraphs) with insights, suggestions to improve outreach, and 3 quick action items."
  +:+ NL +:+ NL +:+ summary.

(** [generate_report]: the statistics, the completion asked for with a
    budget of 256 tokens, which no handler protects, and the file. The
    result is the statistics of the report that has been written. *)
Definition generate_report (df : DataFrame) (out_path : string) (w : W)
  : result (Summary (float64 P)) * W :=
  match report_summary df with
  | Ok s =>
      let summary := summary_text s (counts_order P (persona_counts df)) in
      match generate B (insights_prompt summary) 256 w with
      | (Ok insights, w1) =>
          match write_file D out_path
                  ["# Campaign Summary" +:+ NL +:+ NL; summary +:+ NL +:+ NL;
                   "## AI Insights" +:+ NL +:+ NL; insights] w1 with
          | (Ok _, w2) => (Ok s, w2)
          | (Raise e, w2) => (Raise e, w2)
          end
      | (Raise e, w1) => (Raise e, w1)
      end
  | Raise e => (Raise e, w)
  end.

(** [main] from the table read from the CSV file on: the loop, the table
    written to [args.out], and the report. The result is the table
    written and the statistics of the report; the lines printed at the end
    are left out. *)
Definition main (args : Args) (df : DataFrame) (w : W)
  : result (DataFrame * Summary (float64 P)) * W :=
  let leads := to_dict_records (ensure_columns df) in
  match process_rows B args leads w with
  | (Ok processed, w1) =>
      let out_df := DataFrame_of_records processed in
      match to_csv D (out args) out_df w1 with
      | (Ok _, w2) =>
          match makedirs D "reports" w2 with
          | (Ok _, w3) =>
              match generate_report out_df "reports/campaign_summary.md" w3 with
              | (Ok s, w4) => (Ok (out_df, s), w4)
              | (Raise e, w4) => (Raise e, w4)
              end
          | (Raise e, w3) => (Raise e, w3)
          end
      | (Raise e, w2) => (Raise e, w2)
      end
  | (Raise e, w1) => (Raise e, w1)
  end.

End Report.

(** ** Notions used in the statements *)

(** A token: non-empty and free of whitespace. *)
Definition is_token (s : string) : bool :=
  negb (bool_decide (s = "")) && Py.forallb_chars (λ c, negb (Py.isspace c)) s.

(** What one line of the enrichment completion binds: the trimmed text
    before and after its first colon. *)
Definition line_binding (line : string) : option (string * string) :=
  if Py.contains ":" line then
    match Py.split1 ":" line with
    | [k; v] => Some (Py.strip k, Py.strip v)
    | _ => None
    end
  else None.

(** The value the completion gives for a key: the one of the last line
    that binds this key. *)
Definition completion_value (out key : string) : option string :=
  snd <$> last (filter (λ kv, kv.1 = key) (omap line_binding (Py.splitlines out))).

(** The four fields the enrichment stage may fill. *)
Definition enrich_fields : list string := ["company"; "title"; "industry"; "location"].

(** The dictionary [enrich_lead] leaves, given the parsed completion. *)
Definition enriched (parsed : gmap string string) (l : Lead) : Lead :=
  let l1 := <["company" := Py.or (Py.or (Py.or (lead_get l "company")
               (parsed_get parsed "company")) (lead_get l "company")) (VStr "")]> l in
  let l2 := <["title" := Py.or (Py.or (lead_get l1 "title")
               (parsed_get parsed "title")) (VStr "")]> l1 in
  let l3 := <["industry" := Py.or (Py.or (lead_get l2 "industry")
               (parsed_get parsed "industry")) (VStr "")]> l2 in
  let l4 := <["location" := Py.or (Py.or (lead_get l3 "location")
               (parsed_get parsed "location")) (VStr "")]> l3 in
  <["persona_desc" := parsed_get_default parsed "persona_desc" ""]>
    (<["persona" := parsed_get_default parsed "persona" "Unknown"]> l4).

(** The dictionary the response stage leaves, without and with a reply. *)
Definition not_simulated (l : Lead) : Lead :=
  <["response_category" := VStr "No Response"]>
    (<["response_text" := VStr ""]> (<["status" := VStr "no_response"]> l)).

Definition simulated (reply label_clean : string) (l : Lead) : Lead :=
  <["response_category" := VStr label_clean]>
    (<["response_text" := VStr reply]> (<["status" := VStr "replied"]> l)).

(** The four categories of the specification. *)
Definition categories : list string :=
  ["Interested"; "Maybe"; "Not Interested"; "No Response"].

(** The status a finished record can carry. *)
Definition final_status (s : string) : Prop :=
  s = "no_response" ∨ s = "replied" ∨ ∃ detail, s = "error: " +:+ detail.

(** One of enrichment, scoring, drafting and response simulation raises
    [e], the steps before it having returned; [st'] is the state at that
    point. *)
Definition stage_raises {W} (B : Backend W) (args : Args)
    (st : St W) (e : exn) (st' : St W) : Prop :=
  enrich_lead B st = (Raise e, st')
  ∨ (∃ s1, enrich_lead B st = (Ok (), s1) ∧ score_lead B s1 = (Raise e, st'))
  ∨ (∃ s1 s2, enrich_lead B st = (Ok (), s1) ∧ score_lead B s1 = (Ok (), s2)
              ∧ draft_email B s2 = (Raise e, st'))
  ∨ (∃ s1 s2 s3 s4, enrich_lead B st = (Ok (), s1) ∧ score_lead B s1 = (Ok (), s2)
              ∧ draft_email B s2 = (Ok (), s3) ∧ deliver B args s3 = (Ok (), s4)
              ∧ simulate_and_classify_responses B s4 = (Raise e, st')).

(** Whether the [status] of a row is [sent] or [replied]. *)
Definition sent_or_replied (row : Lead) : bool :=
  bool_decide (row !! "status" = Some (VStr "sent"))
  || bool_decide (row !! "status" = Some (VStr "replied")).

(** ** A scripted world, for running the pipeline on concrete inputs *)

Module Scripted.

(** The answers the outside world will give, in order. *)
Record Script : Type := script {
  completions : list (result string);
  deliveries : list (result ());
  draws : list Qc;
}.

Definition backend : Backend Script := {|
  generate _ _ w :=
    match completions w with
    | c :: cs => (c, script cs (deliveries w) (draws w))
    | [] => (Raise (Exn "RuntimeError" "no completion left"), w)
    end;
  send_email _ _ _ _ _ _ w :=
    match deliveries w with
    | d :: ds => (d, script (completions w) ds (draws w))
    | [] => (Ok (), w)
    end;
  random w :=
    match draws w with
    | r :: rs => (r, script (completions w) (deliveries w) rs)
    | [] => (Q2Qc 0, w)
    end;
  int_max_str_digits := 4300;
|}.

Definition args : Args :=
  {| out := "data/leads_out.csv"; smtp_host := "localhost"; smtp_port := 1025;
     from_addr := "noreply@example.com" |}.

Definition connection_refused : exn :=
  Exn "ConnectionRefusedError" "[Errno 111] Connection refused".

Definition service_down : exn := Exn "APIConnectionError" "Connection error.".

(** A lead as [main] hands it to the stages: the three input columns and
    the nine output columns, still empty. *)
Definition ada : Lead :=
  list_to_map
    ([("first_name", VStr "Ada"); ("last_name", VStr "Lovelace");
      ("email", VStr "ada@example.com")]
     ++ ((λ c, (c, VStr "")) <$> output_columns)).

(** The same lead once scored with the priority 5. *)
Definition ada_scored : Lead := <["priority" := VInt 5]> ada.

(** The three completions of a run without reply, for a lead of priority 2. *)
Definition quiet_run : list (result string) :=
  [Ok "company: ACME"; Ok "priority: 2"; Ok "Subject: Hi Body: Hello"].

(** The cells of a key in the rows a run leaves. *)
Definition cells (k : string) (r : result (list Lead) * Script)
  : result (list (option pyval)) :=
  match r.1 with
  | Ok processed => Ok ((λ row : Lead, row !! k) <$> processed)
  | Raise e => Raise e
  end.

(** The status column of the rows a run leaves. *)
Definition statuses (r : result (list Lead) * Script) : result (list (option pyval)) :=
  match r.1 with
  | Ok processed => Ok ((λ row : Lead, row !! "status") <$> processed)
  | Raise e => Raise e
  end.

(** A disk that takes every write. *)
Definition files : Files Script :=
  {| to_csv _ _ w := (Ok (), w);
     makedirs _ w := (Ok (), w);
     write_file _ _ w := (Ok (), w) |}.

(** The nearest integer to a rational, a tie going to the even one. *)
Definition round_half_even (q : Q) : Z :=
  let d := Z.pos (Qden q) in
  let a := Qnum q / d in
  let r := Qnum q mod d in
  if 2 * r <? d then a
  else if d <? 2 * r then a + 1
  else if Z.even a then a else a + 1.

(** A number rendered with two decimals. *)
Definition two_decimals (q : Qc) : string :=
  let c := Z.abs (round_half_even (Qmult (inject_Z 100) q)) in
  (if bool_decide (q < Q2Qc 0)%Qc then "-" else "")
  +:+ Py.str (VInt (c / 100)) +:+ "."
  +:+ (if c mod 100 <? 10 then "0" else "") +:+ Py.str (VInt (c mod 100)).

(** The pandas of the runs below. The floats are given by their value,
    integers are read as themselves, no string is a number, and the mean
    is the exact one. This is what pandas computes on the tables of these
    runs: their string priorities are empty, their integer priorities are
    small, their means, of one value or of 4 and 2, are exact in double
    precision, and they have at most one persona. *)
Definition pandas : Pandas :=
  {| float64 := Qc;
     zero := Q2Qc 0;
     int_numeric z := Ok (Q2Qc (inject_Z z));
     str_numeric _ := None;
     float_mean xs :=
       Fin (foldr Qcplus (Q2Qc 0) xs / Q2Qc (inject_Z (Z.of_nat (length xs))))%Qc;
     format_2f x :=
       match x with
       | FNaN => "nan"
       | Fin q => two_decimals q
       end;
     counts_order personas := personas |}.

(** The table of a finished run: a reply, no reply, and a record that
    failed before it was scored. *)
Definition finished_table : DataFrame :=
  {| columns := ["status"; "priority"];
     rows := [ {[ "status" := VStr "replied"; "priority" := VInt 4 ]};
               {[ "status" := VStr "no_response"; "priority" := VInt 2 ]};
               {[ "status" := VStr "error: Connection error.";
                  "priority" := VStr "" ]} ] |}.

(** An input table with one row. *)
Definition input_table : DataFrame :=
  {| columns := ["first_name"; "last_name"; "email"];
     rows := [ {[ "first_name" := VStr "Ada"; "last_name" := VStr "Lovelace";
                  "email" := VStr "ada@example.com" ]} ] |}.

End Scripted.


(** ** More notions *)

(** The keys the stages and the orchestrator write. *)
Definition written_keys : list string :=
  ["company"; "title"; "industry"; "location"; "persona"; "persona_desc";
   "priority"; "priority_reason"; "email_subject"; "email_body"; "status";
   "response_text"; "response_category"].

(** The text after the first colon of a line, empty when it has none. *)
Definition after_colon (line : string) : string :=
  match Py.split1 ":" line with
  | [_; b] => b
  | _ => ""
  end.

(** The probability with which a reply is simulated for a priority. *)
Definition reply_threshold (priority : Z) : option Qc :=
  if 4 <=? priority then Some (Q2Qc (8 # 10))
  else if priority =? 3 then Some (Q2Qc (25 # 100))
  else None.

(** ** The completion client of [src/llm_client.py] *)

(** What the SDK can hand back: [None], a string, a list, a [dict] with
    string keys, or an object with attributes. *)
#[warnings="-register-all"] Inductive pyobj : Type :=
  | ONone
  | OStr (s : string)
  | OList (items : list pyobj)
  | ODict (entries : list (string * pyobj))
  | OObj (attrs : list (string * pyobj)).

Module Obj.

Definition lookup (k : string) (kvs : list (string * pyobj)) : option pyobj :=
  snd <$> List.find (λ kv, bool_decide (kv.1 = k)) kvs.

(** [hasattr(o, k)]: only objects carry the attributes looked for here. *)
Definition hasattr (o : pyobj) (k : string) : bool :=
  match o with
  | OObj attrs => bool_decide (is_Some (lookup k attrs))
  | _ => false
  end.

(** [getattr(o, k, None)] *)
Definition getattr (o : pyobj) (k : string) : pyobj :=
  match o with
  | OObj attrs => default ONone (lookup k attrs)
  | _ => ONone
  end.

(** [o is None] *)
Definition is_none (o : pyobj) : bool :=
  match o with ONone => true | _ => false end.

(** [isinstance(o, dict)] *)
Definition isdict (o : pyobj) : bool :=
  match o with ODict _ => true | _ => false end.

(** [d.get(k)] on a [dict] *)
Definition get (o : pyobj) (k : string) : pyobj :=
  match o with
  | ODict entries => default ONone (lookup k entries)
  | _ => ONone
  end.

(** Truth value: an object without [__bool__] or [__len__] is true. *)
Definition truthy (o : pyobj) : bool :=
  match o with
  | ONone => false
  | OStr s => negb (bool_decide (s = ""))
  | OList items => negb (bool_decide (items = []))
  | ODict entries => negb (bool_decide (entries = []))
  | OObj _ => true
  end.

(** [a or b] *)
Definition or (a b : pyobj) : pyobj := if truthy a then a else b.

(** [len(o)]; [None] stands for the [TypeError] of a value without length. *)
Definition len (o : pyobj) : option nat :=
  match o with
  | OStr s => Some (String.length s)
  | OList items => Some (length items)
  | ODict entries => Some (length entries)
  | ONone | OObj _ => None
  end.

(** [o[0]]; [None] stands for the exception raised: [IndexError] on an
    empty sequence, [KeyError] on a [dict], whose keys are strings, and
    [TypeError] on a value that cannot be indexed. *)
Definition item0 (o : pyobj) : option pyobj :=
  match o with
  | OStr (String c _) => Some (OStr (String c ""))
  | OList (x :: _) => Some x
  | _ => None
  end.

(** [o.strip()]; [None] stands for the [AttributeError] of a value that
    is not a string. *)
Definition strip (o : pyobj) : option string :=
  match o with
  | OStr s => Some (Py.strip s)
  | _ => None
  end.

End Obj.

(** How a block of [generate] ends: with a [return], by falling through
    to what follows, or with an exception. *)
Inductive flow : Type :=
  | Return (s : string)
  | Next
  | Raised.

(** [return o.strip()] *)
Definition return_strip (o : pyobj) : flow :=
  match Obj.strip o with
  | Some s => Return s
  | None => Raised
  end.

(** The first [if] of the extraction: an SDK object with [choices]. *)
Definition object_branch (resp : pyobj) : flow :=
  if Obj.hasattr resp "choices" then
    match Obj.len (Obj.getattr resp "choices") with
    | None => Raised
    | Some n =>
        if bool_decide (0 < n)%nat then
          match Obj.item0 (Obj.getattr resp "choices") with
          | None => Raised
          | Some choice =>
              let msg := Obj.getattr choice "message" in
              let from_message :=
                if Obj.is_none msg then Next
                else
                  let content := Obj.getattr msg "content" in
                  if Obj.truthy content then return_strip content else Next in
              match from_message with
              | Next =>
                  let text := Obj.getattr choice "text" in
                  if Obj.truthy text then return_strip text else Next
              | ended => ended
              end
          end
        else Next
    end
  else Next.

(** The second [if]: a response that is a [dict]. *)
Definition dict_branch (resp : pyobj) : flow :=
  if Obj.isdict resp then
    let choices := Obj.or (Obj.get resp "choices") (OList []) in
    match Obj.len choices with
    | None => Raised
    | Some n =>
        if bool_decide (0 < n)%nat then
          match Obj.item0 choices with
          | None => Raised
          | Some first =>
              if Obj.isdict first then
                let msg := Obj.or (Obj.get first "message") (ODict []) in
                if Obj.isdict msg && Obj.truthy (Obj.get msg "content")
                then return_strip (Obj.get msg "content")
                else if Obj.truthy (Obj.get first "text")
                     then return_strip (Obj.get first "text")
                     else Next
              else Next
          end
        else Next
    end
  else Next.

(** The keyword arguments of a call of [chat.completions.create]. *)
Record CreateArgs : Type := {
  arg_model : string;
  arg_content : string;
  arg_max_completion_tokens : option nat;
  arg_max_tokens : option nat;
  arg_reasoning_effort : option string;
}.

(** The Groq SDK: a call of [create] on a world state, [str] of what it
    returns, and the names of the exception classes it defines below
    [TypeError]. *)
Record Sdk (W : Type) : Type := {
  create : CreateArgs → W → result pyobj * W;
  str_of : pyobj → string;
  type_error_subclasses : list string;
}.
Arguments create {W} _ _ _.
Arguments str_of {W} _ _.
Arguments type_error_subclasses {W} _.

Section Client.
Context {W : Type} (sdk : Sdk W).

(** The second [try] of [generate]: whatever is raised while the text is
    looked for ends in [str(resp)]. *)
Definition extract_text (resp : pyobj) : string :=
  match object_branch resp with
  | Return s => s
  | Raised => str_of sdk resp
  | Next =>
      match dict_branch resp with
      | Return s => s
      | Next | Raised => str_of sdk resp
      end
  end.

Definition first_call (model prompt : string) (max_new_tokens : nat) : CreateArgs :=
  {| arg_model := model; arg_content := prompt;
     arg_max_completion_tokens := Some max_new_tokens; arg_max_tokens := None;
     arg_reasoning_effort := Some "medium" |}.

Definition second_call (model prompt : string) (max_new_tokens : nat) : CreateArgs :=
  {| arg_model := model; arg_content := prompt;
     arg_max_completion_tokens := None; arg_max_tokens := Some max_new_tokens;
     arg_reasoning_effort := None |}.

(** [isinstance(e, TypeError)], which is what [except TypeError] tests:
    the class of [e] is [TypeError] or one of its subclasses. *)
Definition is_TypeError (e : exn) : bool :=
  bool_decide (exn_type e = "TypeError")
  || bool_decide (exn_type e ∈ type_error_subclasses sdk).

(** [LLMClient.generate]. The arguments that are the same in both calls
    (temperature, top_p, stream) are left out. *)
Definition LLMClient_generate (model prompt : string) (max_new_tokens : nat) (w : W)
  : result string * W :=
  match create sdk (first_call model prompt max_new_tokens) w with
  | (Ok resp, w1) => (Ok (extract_text resp), w1)
  | (Raise e, w1) =>
      if is_TypeError e then
        match create sdk (second_call model prompt max_new_tokens) w1 with
        | (Ok resp, w2) => (Ok (extract_text resp), w2)
        | (Raise e2, w2) => (Raise e2, w2)
        end
      else (Raise e, w1)
  end.

End Client.

(** ** More cases *)

Module Cases.

(** An input table with a column the pipeline does not know. *)
Definition phone_table : DataFrame :=
  {| columns := ["first_name"; "email"; "phone"];
     rows := [ {[ "first_name" := VStr "Ada"; "email" := VStr "ada@example.com";
                  "phone" := VStr "555-0100" ]} ] |}.

(** An input table whose [company] cell is empty, which [read_csv] reads
    as [nan]. *)
Definition blank_company_table : DataFrame :=
  {| columns := ["first_name"; "last_name"; "email"; "company"];
     rows := [ {[ "first_name" := VStr "Ada"; "last_name" := VStr "Lovelace";
                  "email" := VStr "ada@example.com"; "company" := VNaN ]} ] |}.

(** A completion for the narrative of the report. *)
Definition insights : string := "Reply rates follow the priority.".

(** A completion of the scoring stage with two priority lines. *)
Definition two_priorities : string := "priority: 4" +:+ NL +:+ "priority: high".

(** The two parts of a drafted email in the layout of the prompt. *)
Definition subject_part : string := " Hello Ada" +:+ NL +:+ NL.
Definition body_part : string := " Shall we talk?".

(** A chat completion as the SDK returns it, with two choices. *)
Definition chat_completion : pyobj :=
  OObj [("id", OStr "chatcmpl-1");
        ("choices",
         OList [OObj [("index", OStr "0");
                      ("message", OObj [("role", OStr "assistant");
                                        ("content", OStr (" priority: 4" +:+ NL))])];
                OObj [("message", OObj [("content", OStr "priority: 1")])]])].

(** An SDK that answers every call with [chat_completion]. *)
Definition fixed_sdk : Sdk () :=
  {| create _ w := (Ok chat_completion, w); str_of _ := "ChatCompletion(...)";
     type_error_subclasses := [] |}.

End Cases.

(** * Facts about the string methods *)

Module PyFacts.
Import Py.

Example splitlines_boundaries :
  splitlines ("a" +:+ String "013" (String "010" "b")
              +:+ String "010" (String "010" "c") +:+ String "010" "")
  = ["a"; "b"; ""; "c"].
Proof. vm_compute. reflexivity. Qed.

Lemma lstrip_empty_iff s : lstrip s = "" ↔ forallb_chars isspace s = true.
Proof.
  induction s as [|c s IH]; simpl; [done|].
  destruct (isspace c); simpl; [done|]. split; discriminate.
Qed.

Lemma rstrip_empty_iff s : rstrip s = "" ↔ forallb_chars isspace s = true.
Proof.
  induction s as [|c s IH]; simpl; [done|].
  destruct (rstrip s) eqn:Hr.
  - destruct (isspace c); simpl; [done|]. split; discriminate.
  - split; [discriminate|].
    intros [_ Hs]%andb_prop. apply IH in Hs. discriminate.
Qed.

Lemma lstrip_all_space s :
  forallb_chars isspace (lstrip s) = forallb_chars isspace s.
Proof.
  induction s as [|c s IH]; simpl; [done|].
  destruct (isspace c) eqn:Hc; simpl; [done|]. by rewrite Hc.
Qed.

(** [s.strip()] is empty exactly when [s] is all whitespace. *)
Lemma strip_empty_iff s : strip s = "" ↔ forallb_chars isspace s = true.
Proof. unfold strip. by rewrite rstrip_empty_iff, lstrip_all_space. Qed.

Lemma prefix_drop p s :
  String.prefix p s = true → s = p +:+ drop (String.length p) s.
Proof.
  revert s. induction p as [|a p IH]; intros [|b s] Hp; simpl in *; try done.
  destruct (ascii_dec a b) as [->|]; [|done].
  change (String b p +:+ drop (String.length p) s)
    with (String b (p +:+ drop (String.length p) s)).
  f_equal. by apply IH.
Qed.

(** When [sep in s], [s.split(sep, 1)] has two pieces around [sep]. *)
Lemma split1_contains sep s :
  contains sep s = true →
  ∃ a b, split1 sep s = [a; b] ∧ s = a +:+ sep +:+ b.
Proof.
  induction s as [|c s IH].
  - cbn [contains split1]. rewrite orb_false_r. intros Hp. rewrite Hp.
    eexists _, _. split; [done|]. by apply (prefix_drop sep "").
  - cbn [contains split1].
    destruct (String.prefix sep (String c s)) eqn:Hp.
    + intros _. eexists _, _. split; [done|]. by apply (prefix_drop sep (String c s)).
    + intros (a & b & -> & ->)%IH. by eexists _, _.
Qed.

(** Otherwise it has one. *)
Lemma split1_not_contains sep s :
  contains sep s = false → split1 sep s = [s].
Proof.
  induction s as [|c s IH]; cbn [contains split1].
  - rewrite orb_false_r. by intros ->.
  - intros [-> Hc]%orb_false_elim. by rewrite (IH Hc).
Qed.

Lemma decimal_value_nonneg s acc :
  forallb_chars isdecimal s = true → 0 ≤ acc → 0 ≤ decimal_value acc s.
Proof.
  revert acc. induction s as [|c s IH]; intros acc; simpl; [done|].
  intros [Hc Hs]%andb_prop Hacc. apply IH; [done|].
  unfold isdecimal in Hc. apply bool_decide_eq_true in Hc. lia.
Qed.

(** [int] of a digit string is never negative. *)
Lemma int_of_digits_nonneg m s n : int_of_digits m s = Some n → 0 ≤ n.
Proof.
  unfold int_of_digits. repeat case_match; try done.
  intros [= <-]. apply decimal_value_nonneg; [|done].
  by destruct (forallb_chars isdecimal s).
Qed.

(** A token is the only piece of its own [split()]. *)
Lemma split_ws_token s : is_token s = true → split_ws s = [s].
Proof.
  unfold is_token. intros [Hne Hs]%andb_prop.
  destruct s as [|c s]; [done|]. clear Hne.
  revert c Hs. induction s as [|c' s IH]; intros c; simpl.
  - intros [Hc _]%andb_prop. apply negb_true_iff in Hc. by rewrite Hc.
  - intros [Hc Hs]%andb_prop. apply negb_true_iff in Hc. rewrite Hc.
    pose proof Hs as [Hc' _]%andb_prop. apply negb_true_iff in Hc'.
    rewrite Hc'. specialize (IH c' Hs). simpl in IH. rewrite Hc' in IH.
    by rewrite IH.
Qed.

Lemma or_truthy a b : truthy a = true → or a b = a.
Proof. unfold or. by intros ->. Qed.

Lemma or_falsy a b : truthy a = false → or a b = b.
Proof. unfold or. by intros ->. Qed.

End PyFacts.

(** * Running the stages *)

Section StageFacts.
Context {W : Type} (B : Backend W).

Lemma bind_ok {A C} (m : M W A) (f : A → M W C) st a st1 :
  m st = (Ok a, st1) → (m ≫= f) st = f a st1.
Proof. unfold mbind, M_bind. by intros ->. Qed.

Lemma bind_raise {A C} (m : M W A) (f : A → M W C) st e st1 :
  m st = (Raise e, st1) → (m ≫= f) st = (Raise e, st1).
Proof. unfold mbind, M_bind. by intros ->. Qed.

Lemma bind_inv {A C} (m : M W A) (f : A → M W C) st r st' :
  (m ≫= f) st = (r, st') →
  (∃ a st1, m st = (Ok a, st1) ∧ f a st1 = (r, st'))
  ∨ (∃ e, m st = (Raise e, st') ∧ r = Raise e).
Proof.
  unfold mbind, M_bind. destruct (m st) as [[a|e] st1]; intros H.
  - left. by exists a, st1.
  - right. exists e. by simplify_eq.
Qed.

Lemma enrich_lead_run st :
  enrich_lead B st =
  match generate B (enrich_prompt (lead st)) 128 (world st) with
  | (Ok out, w) =>
      match enrich_parse out with
      | Ok parsed => (Ok (), MkSt w (enriched parsed (lead st)))
      | Raise e => (Raise e, MkSt w (lead st))
      end
  | (Raise e, w) => (Raise e, MkSt w (lead st))
  end.
Proof.
  unfold enrich_lead, llm_generate, call_raising, reads, lift, mbind, M_bind. simpl.
  destruct (generate B _ 128 (world st)) as [[out|e] w]; [|done].
  by destruct (enrich_parse out).
Qed.

Lemma score_lead_run st :
  score_lead B st =
  match generate B (score_prompt (lead st)) 128 (world st) with
  | (Ok out, w) =>
      match score_parse (int_max_str_digits B) out with
      | Ok (priority, reason) =>
          (Ok (), MkSt w (<["priority_reason" := VStr reason]>
                            (<["priority" := VInt priority]> (lead st))))
      | Raise e => (Raise e, MkSt w (lead st))
      end
  | (Raise e, w) => (Raise e, MkSt w (lead st))
  end.
Proof.
  unfold score_lead, llm_generate, call_raising, reads, lift, mbind, M_bind. simpl.
  destruct (generate B _ 128 (world st)) as [[out|e] w]; [|done].
  by destruct (score_parse _ out) as [[??]|].
Qed.

Lemma draft_email_run st :
  draft_email B st =
  match generate B (draft_prompt (lead st)) 128 (world st) with
  | (Ok out, w) =>
      match draft_parse out (lead_get (lead st) "first_name") with
      | Ok (subject, body) =>
          (Ok (), MkSt w (<["email_body" := VStr body]>
                            (<["email_subject" := VStr subject]> (lead st))))
      | Raise e => (Raise e, MkSt w (lead st))
      end
  | (Raise e, w) => (Raise e, MkSt w (lead st))
  end.
Proof.
  unfold draft_email, llm_generate, call_raising, reads, lift, mbind, M_bind. simpl.
  destruct (generate B _ 128 (world st)) as [[out|e] w]; [|done].
  by destruct (draft_parse out _) as [[??]|].
Qed.

(** Delivery never raises: its handler turns a failure into a status. *)
Lemma deliver_run args st :
  ∃ st', deliver B args st = (Ok (), st')
    ∧ (lead st' !! "status" = Some (VStr "sent")
       ∨ ∃ d, lead st' !! "status" = Some (VStr ("send_error: " +:+ d))).
Proof.
  unfold deliver, try_except, get, getitem, call_raising, setitem, mbind, M_bind.
  simpl. repeat case_match; simplify_eq/=;
    eexists; (split; [done|]); simpl; rewrite lookup_insert_eq; eauto.
Qed.

(** The response stage returns in one of two ways: without a reply, or
    with the reply and the label of two completions; when it raises, the
    lead is as it was. *)
Lemma simulate_run st r st' :
  simulate_and_classify_responses B st = (r, st') →
  match r with
  | Ok _ =>
      lead st' = not_simulated (lead st)
      ∨ ∃ w0 reply w1 label label_clean,
          generate B (reply_prompt (lead st)) 128 w0 = (Ok reply, w1)
          ∧ generate B (class_prompt reply) 128 w1 = (Ok label, world st')
          ∧ label_parse label = Ok label_clean
          ∧ lead st' = simulated reply label_clean (lead st)
  | Raise _ => lead st' = lead st
  end.
Proof.
  unfold simulate_and_classify_responses, simulate_elif, llm_generate, call_raising,
    call, reads, lift, get_default, setitem, mbind, M_bind, mret, M_ret.
  simpl. intros H.
  repeat (case_match; simplify_eq/=); try done; try (by left);
    right; eauto 10.
Qed.

End StageFacts.

(** * Scoring *)

Section Scoring.
Variable max_digits : nat.

Lemma score_line_priority p0 r0 line n r :
  score_line max_digits (p0, r0) line = Ok (n, r) →
  (line_starts "priority" line = false ∧ n = p0)
  ∨ (line_starts "priority" line = true
     ∧ (line_int max_digits line = Some n
        ∨ line_int max_digits line = None ∧ n = 3)).
Proof.
  unfold score_line. intros H.
  destruct (line_starts "priority" line); [right|left]; (split; [done|]);
    repeat case_match; simplify_eq; auto.
Qed.

Lemma score_lines_nonneg lines p0 r0 n r :
  for_each (score_line max_digits) (p0, r0) lines = Ok (n, r) → 0 ≤ p0 → 0 ≤ n.
Proof.
  revert p0 r0. induction lines as [|line lines IH]; intros p0 r0; cbn [for_each].
  - by intros [= -> _].
  - destruct (score_line max_digits (p0, r0) line) as [[p1 r1]|] eqn:Hl; [|done].
    intros Hrest Hp0. apply (IH _ _ Hrest).
    apply score_line_priority in Hl as [[_ ->]|[_ [Hi|[_ ->]]]]; [lia| |lia].
    unfold line_int in Hi. by eapply PyFacts.int_of_digits_nonneg.
Qed.

Lemma score_lines_default lines p0 r0 n r :
  for_each (score_line max_digits) (p0, r0) lines = Ok (n, r) →
  Forall (λ line, line_starts "priority" line = true → line_int max_digits line = None)
         lines →
  p0 = 3 → n = 3.
Proof.
  revert p0 r0. induction lines as [|line lines IH]; intros p0 r0; cbn [for_each].
  - by intros [= -> _].
  - destruct (score_line max_digits (p0, r0) line) as [[p1 r1]|] eqn:Hl; [|done].
    intros Hrest [Hline Hlines]%Forall_cons Hp0. apply (IH _ _ Hrest Hlines).
    apply score_line_priority in Hl as [[_ ->]|[Hs [Hi|[_ ->]]]]; [done| |done].
    rewrite (Hline Hs) in Hi. done.
Qed.

Lemma score_lines_origin lines p0 r0 n r :
  for_each (score_line max_digits) (p0, r0) lines = Ok (n, r) →
  n = p0 ∨ n = 3
  ∨ ∃ line, line ∈ lines ∧ line_starts "priority" line = true
            ∧ line_int max_digits line = Some n.
Proof.
  revert p0 r0. induction lines as [|line lines IH]; intros p0 r0; cbn [for_each].
  - intros [= -> _]. by left.
  - destruct (score_line max_digits (p0, r0) line) as [[p1 r1]|] eqn:Hl; [|done].
    intros [->|[->|(l & Hin & Hs & Hi)]]%IH.
    + apply score_line_priority in Hl as [[_ ->]|[Hs [Hi|[_ ->]]]]; auto.
      right; right. exists line. split; [left|done].
    + auto.
    + right; right. exists l. split; [by right|done].
Qed.

(** The loop raises only on a line that starts with "reason" and has no
    colon. *)
Lemma score_lines_return lines acc :
  Forall (λ line, line_starts "reason" line = true → Py.contains ":" line = true) lines →
  ∃ res, for_each (score_line max_digits) acc lines = Ok res.
Proof.
  revert acc. induction lines as [|line lines IH]; intros [p0 r0]; cbn [for_each].
  - by eexists.
  - intros [Hline Hlines]%Forall_cons.
    unfold score_line at 1.
    destruct (line_starts "reason" line) eqn:Hs; [|by apply IH].
    destruct (PyFacts.split1_contains ":" line (Hline eq_refl)) as (a & b & -> & _).
    simpl. by apply IH.
Qed.

End Scoring.

(** C2, as amended: when the completion comes back, the scoring stage
    returns provided every line that starts with "reason" has a colon;
    and whenever it returns, [priority] is a non-negative integer, which is
    3 or the number read from the digits of a line that starts with
    "priority" (so it may lie outside 1..5), and is exactly 3 if no line
    that starts with "priority" yields a valid integer. *)
Theorem score_lead_priority {W} (B : Backend W) st out w :
  generate B (score_prompt (lead st)) 128 (world st) = (Ok out, w) →
  (Forall (λ line, line_starts "reason" line = true → Py.contains ":" line = true)
          (Py.splitlines out) →
   ∃ st', score_lead B st = (Ok (), st'))
  ∧ ∀ st', score_lead B st = (Ok (), st') →
      ∃ n : Z,
        lead st' !! "priority" = Some (VInt n)
        ∧ 0 ≤ n
        ∧ (n = 3 ∨ ∃ line, line ∈ Py.splitlines out
                     ∧ line_starts "priority" line = true
                     ∧ line_int (int_max_str_digits B) line = Some n)
        ∧ (Forall (λ line, line_starts "priority" line = true →
                           line_int (int_max_str_digits B) line = None)
                  (Py.splitlines out) → n = 3).
Proof.
  intros Hgen. rewrite score_lead_run, Hgen. unfold score_parse. split.
  - intros Hlines.
    destruct (score_lines_return (int_max_str_digits B) _ (3, "") Hlines) as [[n r] ->].
    by eexists.
  - intros st'.
    destruct (for_each _ _ _) as [[n r]|] eqn:Hrun; [|done].
    intros [= <-]. exists n. simpl.
    rewrite lookup_insert_ne, lookup_insert_eq by done.
    split_and!; [done| | |].
    + by eapply score_lines_nonneg.
    + apply score_lines_origin in Hrun as [->|[->|?]]; auto.
    + intros Hlines. by eapply score_lines_default.
Qed.

(** The scoring stage on the completion [priority: 4]. *)
Lemma score_lead_priority_witness :
  ∃ st', score_lead Scripted.backend
           (MkSt (Scripted.script [Ok "priority: 4"] [] []) Scripted.ada)
         = (Ok (), st').
Proof.
  assert (Hgen : generate Scripted.backend (score_prompt Scripted.ada) 128
                   (Scripted.script [Ok "priority: 4"] [] [])
                 = (Ok "priority: 4", Scripted.script [] [] []))
    by (vm_compute; reflexivity).
  destruct (score_lead_priority Scripted.backend (MkSt _ _) _ _ Hgen) as [Hret _].
  apply Hret. repeat constructor.
Defined.

(** C2 fails as stated: on the completion [priority: 9] the scoring stage
    returns and leaves the priority 9, outside 1..5. *)
Lemma priority_out_of_range :
  (score_lead Scripted.backend
     (MkSt (Scripted.script [Ok "priority: 9"] [] []) Scripted.ada)).1 = Ok ()
  ∧ lead (score_lead Scripted.backend
            (MkSt (Scripted.script [Ok "priority: 9"] [] []) Scripted.ada)).2
      !! "priority" = Some (VInt 9)
  ∧ ¬ (1 ≤ 9 ≤ 5).
Proof. split_and!; [vm_compute; reflexivity..|lia]. Qed.

(** C4: the parsing inside the stages can raise. A completion of the
    scoring stage with a line that starts with "reason" and has no colon
    makes the unpacking of [line.split(':', 1)] raise [ValueError]; an
    empty completion of the classifier makes [label.splitlines()[0]]
    raise [IndexError]. *)
Theorem stage_parsing_raises :
  (score_lead Scripted.backend
     (MkSt (Scripted.script [Ok ("priority: 4" +:+ NL +:+ "reason unknown")] [] [])
           Scripted.ada)).1
  = Raise (ValueError "not enough values to unpack (expected 2, got 1)")
  ∧ (simulate_and_classify_responses Scripted.backend
       (MkSt (Scripted.script [Ok "Tell me more."; Ok ""] [] [Q2Qc (1 # 10)])
             Scripted.ada_scored)).1
    = Raise (IndexError "list index out of range").
Proof. split; vm_compute; reflexivity. Qed.

(** * Drafting *)

(** The branches of [draft_email] never raise: each split is guarded by
    the test that its separator occurs. *)
Lemma draft_parse_total out first_name :
  ∃ subject body, draft_parse out first_name = Ok (subject, body).
Proof.
  unfold draft_parse. destruct (Py.contains "Subject:" out) eqn:Hs; [|by eexists _, _].
  destruct (PyFacts.split1_contains _ _ Hs) as (a & parts & -> & _). cbn [item1].
  destruct (Py.contains "Body:" parts) eqn:Hb; [|by eexists _, _].
  destruct (PyFacts.split1_contains _ _ Hb) as (subj & bod & -> & _).
  by eexists _, _.
Qed.

(** C3, as amended: for every completion text the drafting stage returns
    and [email_body] is a string. Without a [Subject:] marker it is the
    trimmed text, non-empty exactly when the text has a character that is
    not whitespace. With the marker it is the trimmed text after the first
    [Body:] that follows it, and the empty string when none follows. *)
Theorem draft_email_body {W} (B : Backend W) st out w :
  generate B (draft_prompt (lead st)) 128 (world st) = (Ok out, w) →
  ∃ st' body,
    draft_email B st = (Ok (), st')
    ∧ lead st' !! "email_body" = Some (VStr body)
    ∧ (Py.contains "Subject:" out = false →
       body = Py.strip out
       ∧ (body ≠ "" ↔ Py.forallb_chars Py.isspace out = false))
    ∧ (Py.contains "Subject:" out = true →
       ∃ before parts,
         Py.split1 "Subject:" out = [before; parts]
         ∧ (Py.contains "Body:" parts = false → body = "")
         ∧ (Py.contains "Body:" parts = true →
            ∃ subj bod, Py.split1 "Body:" parts = [subj; bod] ∧ body = Py.strip bod)).
Proof.
  intros Hgen. rewrite draft_email_run, Hgen. unfold draft_parse.
  destruct (Py.contains "Subject:" out) eqn:Hs.
  - destruct (PyFacts.split1_contains _ _ Hs) as (before & parts & Hsplit & _).
    rewrite Hsplit. cbn [item1].
    destruct (Py.contains "Body:" parts) eqn:Hb.
    + destruct (PyFacts.split1_contains _ _ Hb) as (subj & bod & Hsplit' & _).
      rewrite Hsplit'. cbn [Py.unpack2].
      eexists _, _. split; [reflexivity|]. simpl. rewrite lookup_insert_eq.
      split_and!; [done..|]. intros _. exists before, parts.
      split_and!; [done|congruence|]. intros _. by exists subj, bod.
    + eexists _, _. split; [reflexivity|]. simpl. rewrite lookup_insert_eq.
      split_and!; [done..|]. intros _. exists before, parts.
      split_and!; [done..|congruence].
  - eexists _, _. split; [reflexivity|]. simpl. rewrite lookup_insert_eq.
    split_and!; [done| |done]. intros _. split; [done|].
    rewrite <- not_true_iff_false, <- PyFacts.strip_empty_iff. done.
Qed.

(** The drafting stage on a completion without markers. *)
Lemma draft_email_body_witness :
  ∃ st' body,
    draft_email Scripted.backend
      (MkSt (Scripted.script [Ok "Hello Ada, shall we talk?"] [] []) Scripted.ada)
    = (Ok (), st')
    ∧ lead st' !! "email_body" = Some (VStr body).
Proof.
  assert (Hgen : generate Scripted.backend (draft_prompt Scripted.ada) 128
                   (Scripted.script [Ok "Hello Ada, shall we talk?"] [] [])
                 = (Ok "Hello Ada, shall we talk?", Scripted.script [] [] []))
    by (vm_compute; reflexivity).
  destruct (draft_email_body Scripted.backend (MkSt _ _) _ _ Hgen)
    as (st' & body & Hrun & Hbody & _).
  by exists st', body.
Defined.

(** C3 fails as stated: on the completion [Subject: Hello], which has no
    [Body:] marker, the drafting stage returns an empty [email_body]. *)
Lemma draft_email_empty_body :
  (draft_email Scripted.backend
     (MkSt (Scripted.script [Ok "Subject: Hello"] [] []) Scripted.ada)).1 = Ok ()
  ∧ lead (draft_email Scripted.backend
            (MkSt (Scripted.script [Ok "Subject: Hello"] [] []) Scripted.ada)).2
      !! "email_body" = Some (VStr "").
Proof. split; vm_compute; reflexivity. Qed.

(** * Enrichment *)

Lemma enrich_line_binding parsed line :
  enrich_line parsed line =
  Ok (match line_binding line with
      | Some (k, v) => <[k := v]> parsed
      | None => parsed
      end).
Proof.
  unfold enrich_line, line_binding.
  destruct (Py.contains ":" line) eqn:Hc; [|done].
  by destruct (PyFacts.split1_contains _ _ Hc) as (a & b & -> & _).
Qed.

Lemma enrich_lines_fold lines parsed :
  for_each enrich_line parsed lines =
  Ok (foldl (λ m kv, <[kv.1 := kv.2]> m) parsed (omap line_binding lines)).
Proof.
  revert parsed. induction lines as [|line lines IH]; intros parsed; [done|].
  cbn [for_each omap list_omap]. rewrite enrich_line_binding.
  destruct (line_binding line) as [[k v]|]; simpl; apply IH.
Qed.

Lemma fold_insert_lookup (bs : list (string * string)) (m : gmap string string) key :
  foldl (λ m kv, <[kv.1 := kv.2]> m) m bs !! key =
  match last (filter (λ kv, kv.1 = key) bs) with
  | Some kv => Some kv.2
  | None => m !! key
  end.
Proof.
  revert m. induction bs as [|[k v] bs IH]; intros m; [done|].
  cbn [foldl]. rewrite IH, filter_cons. simpl. case_decide as Hk.
  - subst k. rewrite last_cons. destruct (last _); [done|].
    simpl. by rewrite lookup_insert_eq.
  - destruct (last _); [done|]. by rewrite lookup_insert_ne.
Qed.

(** The parsing of the enrichment stage never raises, and the dictionary
    it builds maps each key to the value of the last line binding it. *)
Lemma enrich_parse_total out :
  ∃ parsed, enrich_parse out = Ok parsed
            ∧ ∀ key, parsed !! key = completion_value out key.
Proof.
  unfold enrich_parse. rewrite enrich_lines_fold. eexists. split; [done|].
  intros key. rewrite fold_insert_lookup. unfold completion_value.
  by destruct (last _).
Qed.

(** When the completion comes back, the enrichment stage returns, and for
    each of [company], [title], [industry] and [location]: a value that
    [or] takes as true is kept as it is; one that [or] takes as false
    becomes the value the completion gives for that key, and the empty
    string when the completion gives none. *)
Lemma enrich_lead_fill {W} (B : Backend W) st out w :
  generate B (enrich_prompt (lead st)) 128 (world st) = (Ok out, w) →
  ∃ st',
    enrich_lead B st = (Ok (), st')
    ∧ ∀ field, field ∈ enrich_fields →
        let old := lead_get (lead st) field in
        (Py.truthy old = true → lead st' !! field = Some old)
        ∧ (Py.truthy old = false →
           lead st' !! field = Some (VStr (default "" (completion_value out field)))).
Proof.
  intros Hgen. rewrite enrich_lead_run, Hgen.
  destruct (enrich_parse_total out) as (parsed & -> & Hparsed).
  eexists. split; [done|]. intros field Hin.
  assert (Hor : ∀ old : pyval,
    Py.truthy old = false →
    Py.or (Py.or old (parsed_get parsed field)) (VStr "")
    = VStr (default "" (completion_value out field))).
  { intros old Hold. unfold Py.or, parsed_get. rewrite Hold, <- Hparsed.
    destruct (parsed !! field) as [v|]; simpl; [|done].
    case_bool_decide; by simplify_eq/=. }
  unfold enrich_fields in Hin. simpl. unfold enriched, lead_get.
  set_unfold. destruct Hin as [->|[->|[->|[->|[]]]]]; simplify_map_eq.
  - split; intros Hold; [by rewrite !(PyFacts.or_truthy _ _ Hold)|].
    rewrite <- (Hor _ Hold). f_equal.
    rewrite (PyFacts.or_falsy _ (parsed_get parsed "company")) by done.
    destruct (Py.truthy (parsed_get parsed "company")) eqn:Hp.
    + by rewrite (PyFacts.or_truthy _ (default VNone _)).
    + by rewrite !(PyFacts.or_falsy _ _ Hp), (PyFacts.or_falsy _ _ Hold).
  - split; intros Hold; [by rewrite !(PyFacts.or_truthy _ _ Hold)|by apply f_equal, Hor].
  - split; intros Hold; [by rewrite !(PyFacts.or_truthy _ _ Hold)|by apply f_equal, Hor].
  - split; intros Hold; [by rewrite !(PyFacts.or_truthy _ _ Hold)|by apply f_equal, Hor].
Qed.

(** C5: a blank field is not always filled. The cell that is empty in the
    CSV file reaches the stage as the float [nan], which [or] takes as
    true: whatever the completion gives for the field, the stage keeps
    [nan]. And a cell that holds the integer 0, which is not blank, is
    replaced, [or] taking it as false. So it is in the run of the loop on
    a table whose [company] cell is empty and for which the completion
    gives [company: ACME]: the record goes through every stage and leaves
    the loop with [company] still [nan]. *)
Theorem empty_cell_not_filled :
  (∀ W (B : Backend W) st out w field,
     field ∈ enrich_fields →
     lead st !! field = Some VNaN →
     generate B (enrich_prompt (lead st)) 128 (world st) = (Ok out, w) →
     ∃ st', enrich_lead B st = (Ok (), st') ∧ lead st' !! field = Some VNaN)
  ∧ (∀ W (B : Backend W) st out w field,
       field ∈ enrich_fields →
       lead st !! field = Some (VInt 0) →
       generate B (enrich_prompt (lead st)) 128 (world st) = (Ok out, w) →
       ∃ st', enrich_lead B st = (Ok (), st')
              ∧ lead st' !! field = Some (VStr (default "" (completion_value out field))))
  ∧ (λ row : Lead, row !! "company")
      <$> to_dict_records (ensure_columns Cases.blank_company_table) = [Some VNaN]
  ∧ completion_value "company: ACME" "company" = Some "ACME"
  ∧ Scripted.cells "company"
      (process_rows Scripted.backend Scripted.args
         (to_dict_records (ensure_columns Cases.blank_company_table))
         (Scripted.script Scripted.quiet_run [Ok ()] []))
    = Ok [Some VNaN]
  ∧ Scripted.statuses
      (process_rows Scripted.backend Scripted.args
         (to_dict_records (ensure_columns Cases.blank_company_table))
         (Scripted.script Scripted.quiet_run [Ok ()] []))
    = Ok [Some (VStr "no_response")].
Proof.
  split_and!.
  - intros W B st out w field Hfield Hnan Hgen.
    destruct (enrich_lead_fill B st out w Hgen) as (st' & Hrun & Hfields).
    exists st'. split; [done|].
    destruct (Hfields field Hfield) as [Hkept _].
    unfold lead_get in Hkept. rewrite Hnan in Hkept. by apply Hkept.
  - intros W B st out w field Hfield Hzero Hgen.
    destruct (enrich_lead_fill B st out w Hgen) as (st' & Hrun & Hfields).
    exists st'. split; [done|].
    destruct (Hfields field Hfield) as [_ Hreplaced].
    unfold lead_get in Hreplaced. rewrite Hzero in Hreplaced. by apply Hreplaced.
  - vm_compute. reflexivity.
  - vm_compute. reflexivity.
  - vm_compute. reflexivity.
  - vm_compute. reflexivity.
Qed.

(** * Response simulation *)

(** When the first line of the label is one token once trimmed, that
    token is what the stage keeps. *)
Lemma label_parse_token label line rest :
  Py.splitlines label = line :: rest →
  is_token (Py.strip line) = true →
  label_parse label = Ok (Py.strip line).
Proof.
  intros Hlines Htok. unfold label_parse. rewrite Hlines. cbn [Py.item0].
  by rewrite PyFacts.split_ws_token.
Qed.

(** C6, as amended: when the response stage returns, either no reply was
    simulated, and then [status] is [no_response] and [response_category]
    is [No Response]; or a reply and a label were generated, [status] is
    [replied], and [response_category] is a string which, whenever the
    first line of the label is a single token once trimmed, is that token,
    whether or not it is one of the listed categories. *)
Theorem simulate_response_category {W} (B : Backend W) st st' :
  simulate_and_classify_responses B st = (Ok (), st') →
  (lead st' !! "status" = Some (VStr "no_response")
   ∧ lead st' !! "response_category" = Some (VStr "No Response"))
  ∨ (∃ w0 reply w1 label category,
       generate B (reply_prompt (lead st)) 128 w0 = (Ok reply, w1)
       ∧ generate B (class_prompt reply) 128 w1 = (Ok label, world st')
       ∧ lead st' !! "status" = Some (VStr "replied")
       ∧ lead st' !! "response_category" = Some (VStr category)
       ∧ ∀ line rest,
           Py.splitlines label = line :: rest →
           is_token (Py.strip line) = true →
           category = Py.strip line).
Proof.
  intros Hrun. apply simulate_run in Hrun as [->|Hsim].
  - left. unfold not_simulated. by simplify_map_eq.
  - right. destruct Hsim as (w0 & reply & w1 & label & tok & Hreply & Hlabel & Hparse & ->).
    exists w0, reply, w1, label, tok. unfold simulated.
    split_and!; [done|done|by simplify_map_eq|by simplify_map_eq|].
    intros line rest Hlines Htok.
    rewrite (label_parse_token _ _ _ Hlines Htok) in Hparse. by simplify_eq.
Qed.

(** A lead of priority 5, a draw of 0.1, a reply and the label
    [Interested]. *)
Lemma simulate_response_category_witness :
  (lead (simulate_and_classify_responses Scripted.backend
           (MkSt (Scripted.script [Ok "Tell me more."; Ok "Interested"] []
                    [Q2Qc (1 # 10)]) Scripted.ada_scored)).2
     !! "status" = Some (VStr "no_response")
   ∧ lead (simulate_and_classify_responses Scripted.backend
             (MkSt (Scripted.script [Ok "Tell me more."; Ok "Interested"] []
                      [Q2Qc (1 # 10)]) Scripted.ada_scored)).2
       !! "response_category" = Some (VStr "No Response"))
  ∨ (∃ w0 reply w1 label category,
       generate Scripted.backend (reply_prompt Scripted.ada_scored) 128 w0
       = (Ok reply, w1)
       ∧ generate Scripted.backend (class_prompt reply) 128 w1
         = (Ok label, Scripted.script [] [] [])
       ∧ lead (simulate_and_classify_responses Scripted.backend
                 (MkSt (Scripted.script [Ok "Tell me more."; Ok "Interested"] []
                          [Q2Qc (1 # 10)]) Scripted.ada_scored)).2
           !! "status" = Some (VStr "replied")
       ∧ lead (simulate_and_classify_responses Scripted.backend
                 (MkSt (Scripted.script [Ok "Tell me more."; Ok "Interested"] []
                          [Q2Qc (1 # 10)]) Scripted.ada_scored)).2
           !! "response_category" = Some (VStr category)
       ∧ ∀ line rest,
           Py.splitlines label = line :: rest →
           is_token (Py.strip line) = true →
           category = Py.strip line).
Proof.
  apply (simulate_response_category Scripted.backend
           (MkSt (Scripted.script [Ok "Tell me more."; Ok "Interested"] []
                    [Q2Qc (1 # 10)]) Scripted.ada_scored)
           (simulate_and_classify_responses Scripted.backend
              (MkSt (Scripted.script [Ok "Tell me more."; Ok "Interested"] []
                       [Q2Qc (1 # 10)]) Scripted.ada_scored)).2).
  vm_compute. reflexivity.
Defined.

(** C6 fails as stated: with the label [Unsure] the stage returns and
    [response_category] is [Unsure], none of the four categories. *)
Lemma simulate_category_unlisted :
  (simulate_and_classify_responses Scripted.backend
     (MkSt (Scripted.script [Ok "Tell me more."; Ok "Unsure"] [] [Q2Qc (1 # 10)])
           Scripted.ada_scored)).1 = Ok ()
  ∧ lead (simulate_and_classify_responses Scripted.backend
            (MkSt (Scripted.script [Ok "Tell me more."; Ok "Unsure"] []
                     [Q2Qc (1 # 10)]) Scripted.ada_scored)).2
      !! "response_category" = Some (VStr "Unsure")
  ∧ "Unsure" ∉ categories.
Proof.
  split_and!; [vm_compute; reflexivity..|].
  unfold categories. rewrite !elem_of_cons, elem_of_nil.
  intros [?|[?|[?|[?|[]]]]]; discriminate.
Qed.

(** * The orchestrator *)

Lemma final_status_not_delivery s :
  final_status s → s ≠ "sent" ∧ ∀ detail, s ≠ "send_error: " +:+ detail.
Proof.
  intros [->|[->|[d ->]]]; split; try intros detail; discriminate.
Qed.

Section Orchestrator.
Context {W : Type} (B : Backend W) (args : Args).

Lemma stages_raise st e st' :
  stage_raises B args st e st' → stages B args st = (Raise e, st').
Proof.
  unfold stages.
  intros [H|[(s1 & H1 & H)|[(s1 & s2 & H1 & H2 & H)
                           |(s1 & s2 & s3 & s4 & H1 & H2 & H3 & H4 & H)]]].
  - by apply bind_raise.
  - rewrite (bind_ok _ _ _ _ _ H1). by apply bind_raise.
  - rewrite (bind_ok _ _ _ _ _ H1), (bind_ok _ _ _ _ _ H2). by apply bind_raise.
  - by rewrite (bind_ok _ _ _ _ _ H1), (bind_ok _ _ _ _ _ H2),
      (bind_ok _ _ _ _ _ H3), (bind_ok _ _ _ _ _ H4).
Qed.

(** When the five steps all return, the last one has written the status. *)
Lemma stages_ok st st' :
  stages B args st = (Ok (), st') →
  lead st' !! "status" = Some (VStr "no_response")
  ∨ lead st' !! "status" = Some (VStr "replied").
Proof.
  unfold stages. intros H.
  apply bind_inv in H as [(_ & s1 & _ & H)|(? & _ & ?)]; [|done].
  apply bind_inv in H as [(_ & s2 & _ & H)|(? & _ & ?)]; [|done].
  apply bind_inv in H as [(_ & s3 & _ & H)|(? & _ & ?)]; [|done].
  apply bind_inv in H as [(_ & s4 & _ & H)|(? & _ & ?)]; [|done].
  apply simulate_run in H as [->|(? & reply & ? & ? & tok & _ & _ & _ & ->)].
  - left. unfold not_simulated. by simplify_map_eq.
  - right. unfold simulated. by simplify_map_eq.
Qed.

(** An iteration always returns, with a final status on the record. *)
Lemma process_lead_ok st :
  ∃ st' s, process_lead B args st = (Ok (), st')
           ∧ lead st' !! "status" = Some (VStr s) ∧ final_status s.
Proof.
  unfold process_lead, try_except.
  destruct (stages B args st) as [[[]|e] st1] eqn:Hrun.
  - exists st1. destruct (stages_ok _ _ Hrun) as [Hs|Hs];
      eexists; (split; [done|]); (split; [exact Hs|]); unfold final_status; auto.
  - eexists _, _. split; [done|]. simpl. rewrite lookup_insert_eq.
    split; [done|]. right; right. by eexists.
Qed.

(** The loop returns one record per row, each with a final status. *)
Lemma process_rows_ok rows w :
  ∃ processed w',
    process_rows B args rows w = (Ok processed, w')
    ∧ length processed = length rows
    ∧ Forall (λ row : Lead, ∃ s, row !! "status" = Some (VStr s) ∧ final_status s)
             processed.
Proof.
  revert w. induction rows as [|row rows IH]; intros w.
  - by exists [], w.
  - cbn [process_rows].
    destruct (process_lead_ok (MkSt w row)) as (st' & s & -> & Hs & Hfinal).
    destruct (IH (world st')) as (processed & w' & -> & Hlen & Hall).
    exists (lead st' :: processed), w'. split_and!; [done|by simpl; f_equal|].
    constructor; [by exists s|done].
Qed.

End Orchestrator.

(** C7: when enrichment, scoring, drafting or response simulation raises
    while a record is processed, the iteration still returns: the record
    is the dictionary as it was when the exception was raised, with
    [status] set to [error: ] followed by the detail, no later stage having
    touched the record or the world; it is appended to the output, and the
    loop goes on with the remaining rows from that world. *)
Theorem stage_failure_isolated {W} (B : Backend W) args row w e st' :
  stage_raises B args (MkSt w row) e st' →
  process_lead B args (MkSt w row)
  = (Ok (), MkSt (world st')
              (<["status" := VStr ("error: " +:+ exn_detail e)]> (lead st')))
  ∧ ∀ rest, ∃ processed w',
      process_rows B args rest (world st') = (Ok processed, w')
      ∧ process_rows B args (row :: rest) w
        = (Ok (<["status" := VStr ("error: " +:+ exn_detail e)]> (lead st')
               :: processed), w').
Proof.
  intros Hraise.
  assert (Hlead : process_lead B args (MkSt w row)
                  = (Ok (), MkSt (world st')
                       (<["status" := VStr ("error: " +:+ exn_detail e)]> (lead st')))).
  { unfold process_lead, try_except. by rewrite (stages_raise _ _ _ _ _ Hraise). }
  split; [done|]. intros rest.
  destruct (process_rows_ok B args rest (world st')) as (processed & w' & Hrest & _).
  exists processed, w'. split; [done|].
  cbn [process_rows]. rewrite Hlead. simpl. by rewrite Hrest.
Qed.

(** The completion service is down for the only row. *)
Lemma stage_failure_isolated_witness :
  process_lead Scripted.backend Scripted.args
    (MkSt (Scripted.script [Raise Scripted.service_down] [] []) Scripted.ada)
  = (Ok (), MkSt (Scripted.script [] [] [])
               (<["status" := VStr "error: Connection error."]> Scripted.ada)).
Proof.
  refine (proj1 (stage_failure_isolated Scripted.backend Scripted.args Scripted.ada
                   (Scripted.script [Raise Scripted.service_down] [] [])
                   Scripted.service_down
                   (MkSt (Scripted.script [] [] []) Scripted.ada) _)).
  left. vm_compute. reflexivity.
Defined.

(** C9: the loop of the orchestrator returns for every table, one record
    per row, and the [status] of every record it emits is [no_response],
    [replied] or [error: ] followed by a detail; it is never [sent] nor
    [send_error: ] followed by a detail. *)
Theorem final_status_of_processed {W} (B : Backend W) args rows w :
  ∃ processed w',
    process_rows B args rows w = (Ok processed, w')
    ∧ length processed = length rows
    ∧ Forall (λ row : Lead,
        ∃ s, row !! "status" = Some (VStr s)
             ∧ (s = "no_response" ∨ s = "replied" ∨ ∃ detail, s = "error: " +:+ detail)
             ∧ s ≠ "sent"
             ∧ ∀ detail, s ≠ "send_error: " +:+ detail) processed.
Proof.
  destruct (process_rows_ok B args rows w) as (processed & w' & Hrun & Hlen & Hall).
  exists processed, w'. split_and!; [done..|].
  eapply Forall_impl; [exact Hall|]. intros row (s & Hs & Hfinal).
  exists s. destruct (final_status_not_delivery s Hfinal). by split_and!.
Qed.

(** C1: a run in which the delivery of the only lead fails. After the
    delivery step the status is [send_error: ] followed by the detail, the
    response stage runs, and the record leaves the loop with the status
    [no_response]: the delivery failure is not in the output table. *)
Theorem send_error_overwritten :
  ((enrich_lead Scripted.backend;; score_lead Scripted.backend;;
    draft_email Scripted.backend;; deliver Scripted.backend Scripted.args)
     (MkSt (Scripted.script Scripted.quiet_run [Raise Scripted.connection_refused] [])
           Scripted.ada)).1 = Ok ()
  ∧ lead ((enrich_lead Scripted.backend;; score_lead Scripted.backend;;
           draft_email Scripted.backend;; deliver Scripted.backend Scripted.args)
            (MkSt (Scripted.script Scripted.quiet_run
                     [Raise Scripted.connection_refused] []) Scripted.ada)).2
      !! "status" = Some (VStr "send_error: [Errno 111] Connection refused")
  ∧ Scripted.statuses
      (process_rows Scripted.backend Scripted.args [Scripted.ada]
         (Scripted.script Scripted.quiet_run [Raise Scripted.connection_refused] []))
    = Ok [Some (VStr "no_response")].
Proof. split_and!; vm_compute; reflexivity. Qed.

(** * The report *)

Lemma ensure_columns_rows df : length (rows (ensure_columns df)) = length (rows df).
Proof.
  unfold ensure_columns. generalize output_columns. intros cols.
  revert df. induction cols as [|col cols IH]; intros df; [done|].
  cbn [foldl]. rewrite IH. case_bool_decide; [done|].
  unfold set_column. simpl. by rewrite length_fmap.
Qed.

Lemma to_dict_records_length df : length (to_dict_records df) = length (rows df).
Proof. unfold to_dict_records. by rewrite length_fmap. Qed.

(** A key that some record holds is a column of the table built from the
    records. *)
Lemma DataFrame_of_records_column (records : list Lead) row col v :
  row ∈ records → row !! col = Some v → col ∈ columns (DataFrame_of_records records).
Proof.
  intros Hrow Hcol. unfold DataFrame_of_records. simpl.
  apply elem_of_remove_dups, list_elem_of_bind. exists row. split; [|done].
  apply elem_of_elements, elem_of_dom. by eexists.
Qed.

Lemma count_true_fmap {A} (f g : A → bool) (xs : list A) :
  Forall (λ x, f x = g x) xs → count_true (f <$> xs) = count_true (g <$> xs).
Proof. intros H. by rewrite (Forall_fmap_ext_1 f g xs H). Qed.

Lemma count_true_filter {A} (f : A → bool) (xs : list A) :
  count_true (f <$> xs) = length (filter (λ x, f x = true) xs).
Proof.
  unfold count_true. induction xs as [|x xs IH]; [done|].
  rewrite fmap_cons. destruct (f x) eqn:Hf.
  - rewrite !filter_cons_True by done. simpl. by rewrite IH.
  - rewrite !filter_cons_False by (by rewrite ?Hf). done.
Qed.

Lemma cell_isin_sent_or_replied (row : Lead) :
  cell_isin ["sent"; "replied"] (default VNaN (row !! "status")) = sent_or_replied row.
Proof.
  unfold cell_isin, sent_or_replied.
  destruct (row !! "status") as [[| |z|s]|]; simpl; try done.
  rewrite orb_false_r. f_equal; apply bool_decide_ext; naive_solver.
Qed.

Section ReportFacts.
Context {W : Type} (P : Pandas) (B : Backend W) (D : Files W).

(** The statistics of a report that has been written are those of the
    table. *)
Lemma generate_report_summary df path w summary w' :
  generate_report P B D df path w = (Ok summary, w') →
  report_summary P df = Ok summary.
Proof.
  unfold generate_report. destruct (report_summary P df) as [s|]; [|done].
  destruct (generate B _ 256 w) as [[insights|] w1]; [|done].
  destruct (write_file D _ _ w1) as [[|] w2]; [|done]. by intros [= <- <-].
Qed.

Lemma report_summary_counts df summary :
  report_summary P df = Ok summary →
  report_counts df = Ok (total summary, sent summary, replied summary).
Proof.
  unfold report_summary. destruct (report_counts df) as [[[t s] r]|]; [|done].
  destruct (report_avg_priority P df); [|done]. by intros [= <-].
Qed.

(** What a run of [main] that returns has gone through. *)
Lemma main_returns args df w out_df summary w' :
  main P B D args df w = (Ok (out_df, summary), w') →
  ∃ processed w1,
    process_rows B args (to_dict_records (ensure_columns df)) w = (Ok processed, w1)
    ∧ out_df = DataFrame_of_records processed
    ∧ report_summary P out_df = Ok summary.
Proof.
  unfold main.
  destruct (process_rows B args _ w) as [[processed|] w1]; [|done].
  destruct (to_csv D _ _ w1) as [[|] w2]; [|done].
  destruct (makedirs D _ w2) as [[|] w3]; [|done].
  destruct (generate_report P B D _ _ w3) as [[s|] w4] eqn:Hreport; [|done].
  intros [= <- <- <-]. exists processed, w1. split_and!; [done..|].
  by eapply generate_report_summary.
Qed.

(** The counts of the table of records that the loop has produced. *)
Lemma report_counts_processed (processed : list Lead) :
  processed ≠ [] →
  Forall (λ row : Lead, ∃ s, row !! "status" = Some (VStr s) ∧ final_status s) processed →
  ∃ n_total n_sent,
    report_counts (DataFrame_of_records processed) = Ok (n_total, n_sent, n_sent).
Proof.
  intros Hne Hall. unfold report_counts, column.
  rewrite bool_decide_eq_true_2.
  2:{ destruct processed as [|row processed]; [done|].
      apply Forall_cons in Hall as [(s & Hs & _) _].
      eapply DataFrame_of_records_column; [by left|exact Hs]. }
  cbn [rows DataFrame_of_records].
  assert (Heq : count_true (cell_isin ["sent"; "replied"]
                  <$> ((λ row : Lead, default VNaN (row !! "status")) <$> processed))
                = count_true ((λ v, cell_eq_str v "replied")
                  <$> ((λ row : Lead, default VNaN (row !! "status")) <$> processed))).
  { rewrite <- !list_fmap_compose. apply count_true_fmap.
    eapply Forall_impl; [exact Hall|]. intros r (s' & Hs' & Hfinal). simpl.
    rewrite Hs'. simpl. rewrite orb_false_r.
    destruct (final_status_not_delivery s' Hfinal) as [Hsent _].
    by rewrite (bool_decide_eq_false_2 _ Hsent). }
  rewrite Heq. by eexists _, _.
Qed.

(** C10: the Sent count of the report is the number of rows of the table
    whose status is [sent] or [replied]. The loop of [main] returns for
    every table, and when the table has a row the counts of the records it
    has produced are computed and the Sent count equals the Replied count;
    so they are in every run of [main] that returns. *)
Theorem sent_equals_replied args df w :
  (∀ table n_total n_sent n_replied,
     report_counts table = Ok (n_total, n_sent, n_replied) →
     n_sent = length (filter (λ row, sent_or_replied row = true) (rows table)))
  ∧ (rows df ≠ [] →
     ∃ processed w' n_total n_sent,
       process_rows B args (to_dict_records (ensure_columns df)) w = (Ok processed, w')
       ∧ report_counts (DataFrame_of_records processed) = Ok (n_total, n_sent, n_sent))
  ∧ ∀ out_df summary w',
      main P B D args df w = (Ok (out_df, summary), w') →
      sent summary = replied summary.
Proof.
  split_and!.
  - intros table n_total n_sent n_replied. unfold report_counts, column.
    case_bool_decide; [|done]. intros [= _ <- _].
    rewrite <- list_fmap_compose, <- count_true_filter.
    apply count_true_fmap, Forall_forall. intros row _.
    apply cell_isin_sent_or_replied.
  - intros Hrows.
    destruct (process_rows_ok B args (to_dict_records (ensure_columns df)) w)
      as (processed & w' & Hrun & Hlen & Hall).
    rewrite to_dict_records_length, ensure_columns_rows in Hlen.
    destruct (report_counts_processed processed) as (n_total & n_sent & Hcounts);
      [by destruct processed, (rows df)|done|].
    by exists processed, w', n_total, n_sent.
  - intros out_df summary w' Hmain.
    destruct (main_returns _ _ _ _ _ _ Hmain) as (processed & w1 & Hrun & -> & Hsummary).
    destruct (process_rows_ok B args (to_dict_records (ensure_columns df)) w)
      as (processed' & w1' & Hrun' & _ & Hall).
    rewrite Hrun in Hrun'. injection Hrun' as <- <-.
    apply report_summary_counts in Hsummary.
    destruct processed as [|row processed].
    { by vm_compute in Hsummary. }
    destruct (report_counts_processed (row :: processed)) as (n_total & n_sent & Hcounts);
      [done..|].
    rewrite Hcounts in Hsummary. by injection Hsummary as _ <- <-.
Qed.

End ReportFacts.

(** C8: the report of a run in which no record has a numeric priority. In
    the run of [main] on one row for which the completion service is down,
    the record fails before it is scored and keeps the empty string as its
    [priority]; the narrative completion then comes back and the report is
    written. Whatever the arithmetic of pandas, its average priority is
    [nan], not 0.0: the table has a row, so the guard on an empty column
    does not apply, and the mean that skips the cells without number has
    nothing left. *)
Theorem average_priority_nan (P : Pandas) :
  ∃ out_df summary,
    main P Scripted.backend Scripted.files Scripted.args Scripted.input_table
      (Scripted.script [Raise Scripted.service_down; Ok Cases.insights] [] [])
    = (Ok (out_df, summary), Scripted.script [] [] [])
    ∧ (λ row : Lead, row !! "priority") <$> rows out_df = [Some (VStr "")]
    ∧ avg_priority summary = FNaN
    ∧ avg_priority summary ≠ Fin (zero P).
Proof.
  eexists _, _. split; [vm_compute; reflexivity|].
  split_and!; [vm_compute; reflexivity..|discriminate].
Qed.

(** A run of [main] on a table with one row. *)
Lemma sent_equals_replied_witness :
  ∃ out_df summary w',
    main Scripted.pandas Scripted.backend Scripted.files Scripted.args
      Scripted.input_table
      (Scripted.script (Scripted.quiet_run ++ [Ok Cases.insights]) [Ok ()] [])
    = (Ok (out_df, summary), w')
    ∧ sent summary = replied summary.
Proof.
  assert (∃ out_df summary w',
            main Scripted.pandas Scripted.backend Scripted.files Scripted.args
              Scripted.input_table
              (Scripted.script (Scripted.quiet_run ++ [Ok Cases.insights]) [Ok ()] [])
            = (Ok (out_df, summary), w')) as (out_df & summary & w' & Hrun)
    by (eexists _, _, _; vm_compute; reflexivity).
  exists out_df, summary, w'. split; [exact Hrun|].
  exact (proj2 (proj2 (sent_equals_replied Scripted.pandas Scripted.backend
                         Scripted.files Scripted.args Scripted.input_table
                         (Scripted.script (Scripted.quiet_run ++ [Ok Cases.insights])
                            [Ok ()] [])))
           out_df summary w' Hrun).
Defined.


(** * More on the stages *)

(** Closes [k ∉ keys] from the inequalities in the context. *)
Ltac solve_not_in :=
  rewrite ?not_elem_of_cons; repeat split; first [done | apply not_elem_of_nil].

Section StageFrames.
Context {W : Type} (B : Backend W).

(** The keys a stage does not write keep their values, whether the stage
    returns or raises. *)
Lemma enrich_lead_frame st r st' k :
  enrich_lead B st = (r, st') →
  k ∉ ["company"; "title"; "industry"; "location"; "persona"; "persona_desc"] →
  lead st' !! k = lead st !! k.
Proof.
  rewrite enrich_lead_run. intros Hrun Hk.
  rewrite !not_elem_of_cons in Hk. destruct Hk as (?&?&?&?&?&?&_).
  destruct (generate B _ 128 (world st)) as [[out|e] w]; [|by simplify_eq].
  destruct (enrich_parse out); simplify_eq; [|done].
  unfold enriched. simpl. by rewrite !lookup_insert_ne.
Qed.

Lemma score_lead_frame st r st' k :
  score_lead B st = (r, st') →
  k ∉ ["priority"; "priority_reason"] →
  lead st' !! k = lead st !! k.
Proof.
  rewrite score_lead_run. intros Hrun Hk.
  rewrite !not_elem_of_cons in Hk. destruct Hk as (?&?&_).
  destruct (generate B _ 128 (world st)) as [[out|e] w]; [|by simplify_eq].
  destruct (score_parse _ out) as [[??]|]; simplify_eq; [|done].
  simpl. by rewrite !lookup_insert_ne.
Qed.

Lemma draft_email_frame st r st' k :
  draft_email B st = (r, st') →
  k ∉ ["email_subject"; "email_body"] →
  lead st' !! k = lead st !! k.
Proof.
  rewrite draft_email_run. intros Hrun Hk.
  rewrite !not_elem_of_cons in Hk. destruct Hk as (?&?&_).
  destruct (generate B _ 128 (world st)) as [[out|e] w]; [|by simplify_eq].
  destruct (draft_parse out _) as [[??]|]; simplify_eq; [|done].
  simpl. by rewrite !lookup_insert_ne.
Qed.

Lemma simulate_frame st r st' k :
  simulate_and_classify_responses B st = (r, st') →
  k ∉ ["status"; "response_text"; "response_category"] →
  lead st' !! k = lead st !! k.
Proof.
  intros Hrun Hk. rewrite !not_elem_of_cons in Hk. destruct Hk as (?&?&?&_).
  apply simulate_run in Hrun. destruct r; [|by rewrite Hrun].
  destruct Hrun as [->|(?&?&?&?&?&_&_&_&->)];
    unfold not_simulated, simulated; by rewrite !lookup_insert_ne.
Qed.

(** Delivery in full: a missing subject or body is a [KeyError] that the
    handler records without any hand-off; otherwise the hand-off decides
    between [sent] and [send_error]. *)
Lemma deliver_cases args st :
  deliver B args st =
  match lead st !! "email_subject", lead st !! "email_body" with
  | Some subject, Some body =>
      match send_email B (smtp_host args) (smtp_port args) (from_addr args)
              (lead_get (lead st) "email") subject body (world st) with
      | (Ok _, w) => (Ok (), MkSt w (<["status" := VStr "sent"]> (lead st)))
      | (Raise e, w) =>
          (Ok (), MkSt w (<["status" := VStr ("send_error: " +:+ exn_detail e)]> (lead st)))
      end
  | None, _ =>
      (Ok (), MkSt (world st)
                (<["status" := VStr "send_error: 'email_subject'"]> (lead st)))
  | Some _, None =>
      (Ok (), MkSt (world st)
                (<["status" := VStr "send_error: 'email_body'"]> (lead st)))
  end.
Proof.
  unfold deliver, try_except, get, getitem, call_raising, setitem, mbind, M_bind, lead_get.
  simpl. destruct (lead st !! "email_subject"); [|done].
  destruct (lead st !! "email_body"); [|done]. simpl.
  by destruct (send_email B _ _ _ _ _ _ (world st)) as [[[]|e] w].
Qed.

Lemma deliver_frame args st r st' k :
  deliver B args st = (r, st') → k ≠ "status" → lead st' !! k = lead st !! k.
Proof.
  rewrite deliver_cases. intros Hrun Hk.
  repeat case_match; simplify_eq; simpl; by rewrite lookup_insert_ne.
Qed.

Lemma stages_frame args st r st' k :
  stages B args st = (r, st') → k ∉ written_keys → lead st' !! k = lead st !! k.
Proof.
  unfold stages, written_keys. intros H Hk.
  rewrite !not_elem_of_cons in Hk. destruct Hk as (?&?&?&?&?&?&?&?&?&?&Hstatus&?&?&_).
  assert (Henrich : k ∉ ["company"; "title"; "industry"; "location"; "persona";
                         "persona_desc"]) by solve_not_in.
  assert (Hscore : k ∉ ["priority"; "priority_reason"]) by solve_not_in.
  assert (Hdraft : k ∉ ["email_subject"; "email_body"]) by solve_not_in.
  assert (Hsim : k ∉ ["status"; "response_text"; "response_category"]) by solve_not_in.
  apply bind_inv in H as [([] & s1 & Hrun1 & H)|(? & Hrun1 & ?)];
    [|by apply (enrich_lead_frame _ _ _ k Hrun1)].
  rewrite <- (enrich_lead_frame _ _ _ k Hrun1) by done.
  apply bind_inv in H as [([] & s2 & Hrun2 & H)|(? & Hrun2 & ?)];
    [|by apply (score_lead_frame _ _ _ k Hrun2)].
  rewrite <- (score_lead_frame _ _ _ k Hrun2) by done.
  apply bind_inv in H as [([] & s3 & Hrun3 & H)|(? & Hrun3 & ?)];
    [|by apply (draft_email_frame _ _ _ k Hrun3)].
  rewrite <- (draft_email_frame _ _ _ k Hrun3) by done.
  apply bind_inv in H as [([] & s4 & Hrun4 & H)|(? & Hrun4 & ?)];
    [|by apply (deliver_frame _ _ _ _ k Hrun4)].
  rewrite <- (deliver_frame _ _ _ _ k Hrun4) by done.
  by apply (simulate_frame _ _ _ k H).
Qed.

Lemma process_lead_frame args st r st' k :
  process_lead B args st = (r, st') → k ∉ written_keys → lead st' !! k = lead st !! k.
Proof.
  unfold process_lead, try_except, setitem. intros H Hk.
  destruct (stages B args st) as [[[]|e] s1] eqn:Hrun; simplify_eq.
  - by eapply stages_frame.
  - simpl. rewrite lookup_insert_ne; [by eapply stages_frame|].
    intros <-. apply Hk. unfold written_keys. rewrite !elem_of_cons. tauto.
Qed.

End StageFrames.


(** X1: when enrichment, scoring, drafting or response simulation raises,
    the dictionary is as it was when the stage was entered: a stage writes
    its fields only after everything that can raise in it has returned. *)
Theorem stage_raise_leaves_lead {W} (B : Backend W) (stage : M W ()) st e st' :
  stage ∈ [enrich_lead B; score_lead B; draft_email B;
           simulate_and_classify_responses B] →
  stage st = (Raise e, st') →
  lead st' = lead st.
Proof.
  rewrite !elem_of_cons, elem_of_nil.
  intros [->|[->|[->|[->|[]]]]].
  - rewrite enrich_lead_run. repeat case_match; by intros; simplify_eq.
  - rewrite score_lead_run. repeat case_match; by intros; simplify_eq.
  - rewrite draft_email_run. repeat case_match; by intros; simplify_eq.
  - intros Hrun. by apply simulate_run in Hrun.
Qed.

(** The scoring stage raising on a "reason" line without colon. *)
Lemma stage_raise_leaves_lead_witness :
  lead (score_lead Scripted.backend
          (MkSt (Scripted.script [Ok "reason unknown"] [] []) Scripted.ada)).2
  = Scripted.ada.
Proof.
  apply (stage_raise_leaves_lead Scripted.backend (score_lead Scripted.backend)
           (MkSt (Scripted.script [Ok "reason unknown"] [] []) Scripted.ada)
           (ValueError "not enough values to unpack (expected 2, got 1)")).
  - rewrite !elem_of_cons. right; left. reflexivity.
  - vm_compute. reflexivity.
Defined.

(** The loop returns the records in the order of the rows, and a key that
    is not one of the thirteen written ones has in the record the value it
    had in the row. *)
Lemma process_rows_frame {W} (B : Backend W) args rows w :
  ∃ processed w',
    process_rows B args rows w = (Ok processed, w')
    ∧ Forall2 (λ row out : Lead, ∀ k, k ∉ written_keys → out !! k = row !! k)
              rows processed.
Proof.
  revert w. induction rows as [|row rows IH]; intros w.
  - exists [], w. split; [done|constructor].
  - cbn [process_rows].
    destruct (process_lead_ok B args (MkSt w row)) as (st' & s & Hrun & _).
    rewrite Hrun.
    destruct (IH (world st')) as (processed & w' & -> & Hall).
    exists (lead st' :: processed), w'. split; [done|].
    constructor; [|done]. intros k Hk.
    apply (process_lead_frame B args _ _ _ k Hrun Hk).
Qed.

(** * The tables of [main] *)

Lemma list_to_map_columns (f : string → pyval) (cs : list string) c :
  (list_to_map ((λ c, (c, f c)) <$> cs) : Lead) !! c
  = if bool_decide (c ∈ cs) then Some (f c) else None.
Proof.
  induction cs as [|c' cs IH]; [done|].
  rewrite fmap_cons, list_to_map_cons. destruct (decide (c' = c)) as [->|Hne].
  - rewrite lookup_insert_eq, bool_decide_eq_true_2; [done|by left].
  - rewrite lookup_insert_ne, IH by done.
    apply (f_equal (λ b : bool, if b then Some (f c) else None)).
    apply bool_decide_ext. rewrite elem_of_cons. split; [auto|]. by intros [?|?].
Qed.

(** The loop that adds the missing columns, on any list of columns. *)
Lemma add_columns_spec (cols : list string) df :
  let df' :=
    foldl (λ df col, if bool_decide (col ∈ columns df) then df
                     else set_column col (VStr "") df) df cols in
  (∀ c, c ∈ columns df' ↔ c ∈ columns df ∨ c ∈ cols)
  ∧ Forall2 (λ row row' : Lead,
       (∀ c, c ∈ columns df → row' !! c = row !! c)
       ∧ (∀ c, c ∈ cols → c ∉ columns df → row' !! c = Some (VStr "")))
      (rows df) (rows df').
Proof.
  revert df. induction cols as [|col cols IH]; intros df; cbn [foldl].
  - split; [intros c; rewrite elem_of_nil; tauto|].
    apply Forall2_same_length_lookup_2; [done|].
    intros i row row' H1 H2. simplify_eq. split; [done|].
    intros c Hc. by apply elem_of_nil in Hc.
  - case_bool_decide as Hcol.
    + destruct (IH df) as [Hcols Hrows]. split.
      * intros c. rewrite Hcols, elem_of_cons. split; [tauto|].
        intros [?|[->|?]]; auto.
      * eapply Forall2_impl; [exact Hrows|]. intros row row' [Hold Hnew].
        split; [done|]. intros c [->|Hc]%elem_of_cons Hnot; [done|by apply Hnew].
    + destruct (IH (set_column col (VStr "") df)) as [Hcols Hrows].
      assert (Hset : ∀ c, c ∈ columns (set_column col (VStr "") df)
                          ↔ c ∈ columns df ∨ c = col).
      { intros c. unfold set_column. simpl. case_bool_decide.
        - split; [auto|]. intros [?|Heq]; [done|by rewrite Heq].
        - by rewrite elem_of_app, list_elem_of_singleton. }
      split.
      * intros c. rewrite Hcols, Hset, elem_of_cons. tauto.
      * apply Forall2_fmap_l in Hrows.
        eapply Forall2_impl; [exact Hrows|]. intros row row' [Hold Hnew].
        cbv beta in Hold, Hnew. split.
        -- intros c Hc. rewrite Hold by (apply Hset; by left).
           apply lookup_insert_ne. by intros ->.
        -- intros c Hc Hnot. destruct (decide (c = col)) as [->|Hne].
           ++ rewrite Hold by (apply Hset; by right). apply lookup_insert_eq.
           ++ apply elem_of_cons in Hc as [?|Hc]; [done|].
              apply Hnew; [done|]. rewrite Hset. tauto.
Qed.

(** X2: the records [main] hands to the stages, one per row and in the
    order of the rows, have exactly the columns of the input and the nine
    output columns as keys; a column of the input keeps its cells, also
    when it is one of the nine, an empty cell reading as [nan]; and an
    output column the input lacks holds the empty string. *)
Theorem leads_of_table df :
  Forall2 (λ row record : Lead,
      (∀ c, is_Some (record !! c) ↔ c ∈ columns df ∨ c ∈ output_columns)
      ∧ (∀ c, c ∈ columns df → record !! c = Some (default VNaN (row !! c)))
      ∧ (∀ c, c ∈ output_columns → c ∉ columns df → record !! c = Some (VStr "")))
    (rows df) (to_dict_records (ensure_columns df)).
Proof.
  unfold to_dict_records, ensure_columns. generalize output_columns. intros cols.
  destruct (add_columns_spec cols df) as [Hcols Hrows]. cbv zeta in Hcols, Hrows.
  apply Forall2_fmap_r.
  eapply Forall2_impl; [exact Hrows|]. intros row row' [Hold Hnew]. cbv beta.
  split_and!; intros c; rewrite list_to_map_columns.
  - case_bool_decide as Hc; rewrite Hcols in Hc.
    + split; [done|]. by eexists.
    + split; [by intros [? ?]|done].
  - intros Hc. rewrite bool_decide_eq_true_2 by (apply Hcols; by left).
    by rewrite Hold.
  - intros Hc Hnot. rewrite bool_decide_eq_true_2 by (apply Hcols; by right).
    by rewrite (Hnew c Hc Hnot).
Qed.

Lemma leads_of_table_columns df :
  Forall2 (λ row record : Lead,
      ∀ c, c ∈ columns df → record !! c = Some (default VNaN (row !! c)))
    (rows df) (to_dict_records (ensure_columns df)).
Proof.
  unfold to_dict_records, ensure_columns. generalize output_columns. intros cols.
  destruct (add_columns_spec cols df) as [Hcols Hrows]. cbv zeta in Hcols, Hrows.
  apply Forall2_fmap_r.
  eapply Forall2_impl; [exact Hrows|]. intros row row' [Hold _]. cbv beta.
  intros c Hc. rewrite list_to_map_columns.
  rewrite bool_decide_eq_true_2 by (apply Hcols; by left). by rewrite Hold.
Qed.


Lemma count_true_mono {A} (f g : A → bool) (xs : list A) :
  (∀ x, f x = true → g x = true) →
  (count_true (f <$> xs) ≤ count_true (g <$> xs))%nat.
Proof.
  intros Hfg. rewrite !count_true_filter. induction xs as [|x xs IH]; [done|].
  rewrite !filter_cons. destruct (f x) eqn:Hf.
  - rewrite (Hfg x Hf), !decide_True by done. simpl. lia.
  - rewrite decide_False by done. case_decide; simpl; lia.
Qed.

Section MainFacts.
Context {W : Type} (P : Pandas) (B : Backend W) (D : Files W).

(** X3: in a run of [main] that returns, the output table has one row per
    input row, in the same order, and every input column that is not one
    of the thirteen written keys has in the output row the cell of the
    input row, an empty cell reading as [nan]. *)
Theorem main_passes_columns args df w out_df summary w' :
  main P B D args df w = (Ok (out_df, summary), w') →
  Forall2 (λ row out : Lead,
      ∀ c, c ∈ columns df → c ∉ written_keys →
           out !! c = Some (default VNaN (row !! c)))
    (rows df) (rows out_df).
Proof.
  intros Hmain.
  destruct (main_returns P B D _ _ _ _ _ _ Hmain) as (processed & w1 & Hrun & -> & _).
  destruct (process_rows_frame B args (to_dict_records (ensure_columns df)) w)
    as (processed' & w1' & Hrun' & Hpass).
  rewrite Hrun in Hrun'. injection Hrun' as <- <-. clear Hmain Hrun.
  cbn [rows DataFrame_of_records].
  pose proof (leads_of_table_columns df) as Hleads.
  eapply Forall2_trans; [|exact Hleads|exact Hpass].
  intros row record out Hrecord Hout c Hc Hnot. simpl in *.
  rewrite (Hout c Hnot). by apply Hrecord.
Qed.

(** X4: on a table without rows [main] requests no completion and sends
    no mail: it writes the empty table, makes the directory of the report,
    and, these two having returned, ends with the [KeyError] of
    [df['status']], since the table built from an empty list of records
    has no column. *)
Theorem main_without_rows args df w :
  rows df = [] →
  main P B D args df w
  = match to_csv D (out args) (DataFrame_of_records []) w with
    | (Ok _, w1) =>
        match makedirs D "reports" w1 with
        | (Ok _, w2) => (Raise (KeyError "'status'"), w2)
        | (Raise e, w2) => (Raise e, w2)
        end
    | (Raise e, w1) => (Raise e, w1)
    end.
Proof.
  intros Hrows. unfold main.
  assert (Hleads : to_dict_records (ensure_columns df) = []).
  { apply length_zero_iff_nil.
    by rewrite to_dict_records_length, ensure_columns_rows, Hrows. }
  rewrite Hleads. cbn [process_rows].
  destruct (to_csv D _ _ w) as [[|] w1]; [|done].
  by destruct (makedirs D _ w1) as [[|] w2].
Qed.

(** X5: in every report, Replied is at most Sent, Sent is at most Total,
    and Total is the number of rows of the table. *)
Theorem report_counts_ordered df path w summary w' :
  generate_report P B D df path w = (Ok summary, w') →
  (replied summary ≤ sent summary ≤ total summary)%nat
  ∧ total summary = length (rows df).
Proof.
  intros Hreport. apply generate_report_summary, report_summary_counts in Hreport.
  unfold report_counts in Hreport.
  destruct (column df "status") as [status|] eqn:Hcol; [|done].
  injection Hreport as Htotal Hsent Hreplied.
  rewrite <- Htotal, <- Hsent, <- Hreplied. split_and!; [| |done].
  - apply count_true_mono. intros v Hv. unfold cell_isin. simpl.
    by rewrite Hv, orb_true_r.
  - unfold column in Hcol. case_bool_decide; [|done]. simplify_eq.
    unfold count_true. etrans; [apply length_filter|]. by rewrite !length_fmap.
Qed.

End MainFacts.

(** A table with an extra column run through [main]. *)
Lemma main_passes_columns_witness :
  ∃ out_df summary w',
    main Scripted.pandas Scripted.backend Scripted.files Scripted.args
      Cases.phone_table
      (Scripted.script (Scripted.quiet_run ++ [Ok Cases.insights]) [Ok ()] [])
    = (Ok (out_df, summary), w')
    ∧ Forall2 (λ row out : Lead,
          ∀ c, c ∈ columns Cases.phone_table → c ∉ written_keys →
               out !! c = Some (default VNaN (row !! c)))
        (rows Cases.phone_table) (rows out_df).
Proof.
  assert (∃ out_df summary w',
            main Scripted.pandas Scripted.backend Scripted.files Scripted.args
              Cases.phone_table
              (Scripted.script (Scripted.quiet_run ++ [Ok Cases.insights]) [Ok ()] [])
            = (Ok (out_df, summary), w')) as (out_df & summary & w' & Hrun)
    by (eexists _, _, _; vm_compute; reflexivity).
  exists out_df, summary, w'. split; [exact Hrun|].
  exact (main_passes_columns _ _ _ _ _ _ _ _ _ Hrun).
Defined.

(** A table that has columns and no row. *)
Lemma main_without_rows_witness :
  main Scripted.pandas Scripted.backend Scripted.files Scripted.args
    {| columns := ["first_name"; "last_name"; "email"]; rows := [] |}
    (Scripted.script [] [] [])
  = (Raise (KeyError "'status'"), Scripted.script [] [] []).
Proof.
  exact (main_without_rows Scripted.pandas Scripted.backend Scripted.files
           Scripted.args
           {| columns := ["first_name"; "last_name"; "email"]; rows := [] |}
           (Scripted.script [] [] []) eq_refl).
Defined.

(** The report of the finished table. *)
Lemma report_counts_ordered_witness :
  ∃ summary w',
    generate_report Scripted.pandas Scripted.backend Scripted.files
      Scripted.finished_table "reports/campaign_summary.md"
      (Scripted.script [Ok Cases.insights] [] [])
    = (Ok summary, w')
    ∧ (replied summary ≤ sent summary ≤ total summary)%nat.
Proof.
  assert (∃ summary w',
            generate_report Scripted.pandas Scripted.backend Scripted.files
              Scripted.finished_table "reports/campaign_summary.md"
              (Scripted.script [Ok Cases.insights] [] [])
            = (Ok summary, w')) as (summary & w' & Hrun)
    by (eexists _, _; vm_compute; reflexivity).
  exists summary, w'. split; [exact Hrun|].
  exact (proj1 (report_counts_ordered Scripted.pandas Scripted.backend Scripted.files
                  _ _ _ _ _ Hrun)).
Defined.

(** * More on the parsing *)

(** The loop of [score_lead] keeps, for each of the two values, what the
    last line of its kind gives. *)
Lemma score_lines_last m lines p0 r0 n r :
  for_each (score_line m) (p0, r0) lines = Ok (n, r) →
  n = match last (filter (λ l, line_starts "priority" l = true) lines) with
      | Some line => default 3 (line_int m line)
      | None => p0
      end
  ∧ r = match last (filter (λ l, line_starts "reason" l = true) lines) with
        | Some line => Py.strip (after_colon line)
        | None => r0
        end.
Proof.
  revert p0 r0. induction lines as [|line lines IH]; intros p0 r0; cbn [for_each].
  - by intros [= -> ->].
  - destruct (score_line m (p0, r0) line) as [[p1 r1]|] eqn:Hline; [|done].
    intros Hrest. destruct (IH _ _ Hrest) as [Hn Hr0]. clear IH Hrest.
    rewrite Hn, Hr0. clear Hn Hr0. unfold score_line in Hline.
    destruct (line_starts "priority" line) eqn:Hp;
      destruct (line_starts "reason" line) eqn:Hr.
    + destruct (Py.split1 ":" line) as [|a [|b [|]]] eqn:Hsplit; simplify_eq/=.
      rewrite !filter_cons_True, !last_cons by done.
      destruct (last (filter (λ l, line_starts "priority" l = true) lines)),
        (last (filter (λ l, line_starts "reason" l = true) lines));
        unfold after_colon; by rewrite ?Hsplit.
    + simplify_eq.
      rewrite filter_cons_True, (filter_cons_False (λ l, line_starts "reason" l = true)),
        last_cons by (done || by rewrite Hr).
      by destruct (last (filter (λ l, line_starts "priority" l = true) lines)).
    + destruct (Py.split1 ":" line) as [|a [|b [|]]] eqn:Hsplit; simplify_eq/=.
      rewrite (filter_cons_False (λ l, line_starts "priority" l = true)),
        filter_cons_True, last_cons by (done || by rewrite Hp).
      destruct (last (filter (λ l, line_starts "reason" l = true) lines));
        unfold after_colon; by rewrite ?Hsplit.
    + simplify_eq.
      by rewrite (filter_cons_False (λ l, line_starts "priority" l = true)),
        (filter_cons_False (λ l, line_starts "reason" l = true))
        by (by rewrite ?Hp, ?Hr).
Qed.

(** X6: when the scoring stage returns, the last line that starts with
    "priority" decides [priority], which is the integer read from its
    digits, or 3 when they give none, even if an earlier line gave one;
    and the last line that starts with "reason" decides [priority_reason],
    the trimmed text after its first colon. Without such a line the values
    are 3 and the empty string. *)
Theorem score_lead_last_lines {W} (B : Backend W) st out w st' :
  generate B (score_prompt (lead st)) 128 (world st) = (Ok out, w) →
  score_lead B st = (Ok (), st') →
  lead st' !! "priority"
  = Some (VInt match last (filter (λ l, line_starts "priority" l = true)
                             (Py.splitlines out)) with
               | Some line => default 3 (line_int (int_max_str_digits B) line)
               | None => 3
               end)
  ∧ lead st' !! "priority_reason"
    = Some (VStr match last (filter (λ l, line_starts "reason" l = true)
                               (Py.splitlines out)) with
                 | Some line => Py.strip (after_colon line)
                 | None => ""
                 end).
Proof.
  intros Hgen. rewrite score_lead_run, Hgen. unfold score_parse.
  destruct (for_each _ _ _) as [[n r]|] eqn:Hrun; [|done].
  intros [= <-]. simpl. apply score_lines_last in Hrun as [-> ->].
  by rewrite lookup_insert_ne, !lookup_insert_eq.
Qed.

(** A valid priority followed by a malformed one. *)
Lemma score_lead_last_lines_witness :
  ∃ st',
    score_lead Scripted.backend
      (MkSt (Scripted.script [Ok Cases.two_priorities] [] []) Scripted.ada)
    = (Ok (), st')
    ∧ lead st' !! "priority" = Some (VInt 3).
Proof.
  assert (Hgen : generate Scripted.backend (score_prompt Scripted.ada) 128
                   (Scripted.script [Ok Cases.two_priorities] [] [])
                 = (Ok Cases.two_priorities, Scripted.script [] [] []))
    by (vm_compute; reflexivity).
  assert (Hrun : ∃ st', score_lead Scripted.backend
                   (MkSt (Scripted.script [Ok Cases.two_priorities] [] []) Scripted.ada)
                 = (Ok (), st')) by (eexists; vm_compute; reflexivity).
  destruct Hrun as [st' Hrun]. exists st'. split; [exact Hrun|].
  destruct (score_lead_last_lines Scripted.backend (MkSt _ _) _ _ _ Hgen Hrun)
    as [Hpriority _].
  rewrite Hpriority. vm_compute. reflexivity.
Defined.

(** X7: the enrichment stage always rewrites [persona] and [persona_desc],
    whatever the record held: [persona] becomes the value the completion
    gives for the key [persona], and [Unknown] when it gives none;
    [persona_desc] becomes the value for [persona_desc], and the empty
    string when there is none. *)
Theorem enrich_lead_persona {W} (B : Backend W) st out w :
  generate B (enrich_prompt (lead st)) 128 (world st) = (Ok out, w) →
  ∃ st',
    enrich_lead B st = (Ok (), st')
    ∧ lead st' !! "persona"
      = Some (VStr (default "Unknown" (completion_value out "persona")))
    ∧ lead st' !! "persona_desc"
      = Some (VStr (default "" (completion_value out "persona_desc"))).
Proof.
  intros Hgen. rewrite enrich_lead_run, Hgen.
  destruct (enrich_parse_total out) as (parsed & -> & Hparsed).
  eexists. split; [done|]. unfold enriched, parsed_get_default. simpl.
  rewrite lookup_insert_ne, !lookup_insert_eq by done.
  by rewrite !Hparsed.
Qed.

(** A lead that already has a persona, and a completion without one. *)
Lemma enrich_lead_persona_witness :
  ∃ st',
    enrich_lead Scripted.backend
      (MkSt (Scripted.script [Ok "company: ACME"] [] [])
            (<["persona" := VStr "Buyer"]> Scripted.ada))
    = (Ok (), st')
    ∧ lead st' !! "persona" = Some (VStr "Unknown").
Proof.
  assert (Hgen : generate Scripted.backend
                   (enrich_prompt (<["persona" := VStr "Buyer"]> Scripted.ada)) 128
                   (Scripted.script [Ok "company: ACME"] [] [])
                 = (Ok "company: ACME", Scripted.script [] [] []))
    by (vm_compute; reflexivity).
  destruct (enrich_lead_persona Scripted.backend (MkSt _ _) _ _ Hgen)
    as (st' & Hrun & Hpersona & _).
  exists st'. split; [exact Hrun|]. rewrite Hpersona. vm_compute. reflexivity.
Defined.


(** * Splitting at the first marker *)

Lemma app_String c s t : String c s +:+ t = String c (s +:+ t).
Proof. reflexivity. Qed.

Lemma app_assoc_string a b c : (a +:+ b) +:+ c = a +:+ b +:+ c.
Proof. induction a as [|x a IH]; [done|]. by rewrite !app_String, IH. Qed.

Lemma length_app_string s t :
  String.length (s +:+ t) = (String.length s + String.length t)%nat.
Proof. induction s as [|x s IH]; [done|]. rewrite app_String. simpl. by rewrite IH. Qed.

Lemma drop_app_string p b : Py.drop (String.length p) (p +:+ b) = b.
Proof. induction p as [|x p IH]; [by destruct b|]. by rewrite app_String. Qed.

Lemma prefix_app_string p b : String.prefix p (p +:+ b) = true.
Proof.
  induction p as [|x p IH]; [by destruct b|].
  rewrite app_String. simpl. by destruct (ascii_dec x x).
Qed.

(** Whether [sep] starts a string depends on its first characters only. *)
Lemma prefix_app_long sep x y :
  (String.length sep ≤ String.length x)%nat →
  String.prefix sep (x +:+ y) = String.prefix sep x.
Proof.
  revert x. induction sep as [|c sep IH]; intros [|d x] Hlen.
  - by destruct y.
  - by rewrite app_String.
  - simpl in Hlen. lia.
  - rewrite app_String. simpl in *.
    destruct (ascii_dec c d); [|done]. apply IH. lia.
Qed.

(** When [sep] does not occur before the place where it is put,
    [split(sep, 1)] cuts there. *)
Lemma split1_first sep0 c a b :
  Py.contains (sep0 +:+ String c "") (a +:+ sep0) = false →
  Py.split1 (sep0 +:+ String c "") (a +:+ (sep0 +:+ String c "") +:+ b) = [a; b]
  ∧ Py.contains (sep0 +:+ String c "") (a +:+ (sep0 +:+ String c "") +:+ b) = true.
Proof.
  set (sep := sep0 +:+ String c "").
  induction a as [|x a IH].
  - intros _. change ("" +:+ sep +:+ b) with (sep +:+ b).
    assert (Hp : String.prefix sep (sep +:+ b) = true) by apply prefix_app_string.
    split.
    + destruct (sep +:+ b) eqn:Heq; cbn [Py.split1]; rewrite Hp; rewrite <- Heq;
        by rewrite drop_app_string.
    + destruct (sep +:+ b) eqn:Heq; cbn [Py.contains]; by rewrite Hp.
  - rewrite !app_String. cbn [Py.contains Py.split1].
    intros [Hp Hrest]%orb_false_elim.
    assert (Hp' : String.prefix sep (String x (a +:+ sep +:+ b)) = false).
    { rewrite <- Hp. rewrite <- (app_String x a (sep +:+ b)).
      assert (Heq : String x a +:+ sep +:+ b
                    = (String x a +:+ sep0) +:+ (String c "" +:+ b)).
      { unfold sep. by rewrite !app_assoc_string. }
      rewrite Heq, <- app_String. apply prefix_app_long.
      unfold sep. rewrite !length_app_string. simpl. lia. }
    rewrite Hp'. destruct (IH Hrest) as [-> ->]. done.
Qed.

(** * More on drafting *)

(** X8: a completion in the layout the prompt asks for is read back. When
    the text is some preamble, [Subject:], a subject, [Body:] and a body,
    each marker being the first occurrence of itself after what precedes
    it, the drafting stage stores the trimmed subject and the trimmed
    body. *)
Theorem draft_email_round_trip {W} (B : Backend W) st pre subject body w :
  generate B (draft_prompt (lead st)) 128 (world st)
  = (Ok (pre +:+ "Subject:" +:+ subject +:+ "Body:" +:+ body), w) →
  Py.contains "Subject:" (pre +:+ "Subject") = false →
  Py.contains "Body:" (subject +:+ "Body") = false →
  ∃ st',
    draft_email B st = (Ok (), st')
    ∧ lead st' !! "email_subject" = Some (VStr (Py.strip subject))
    ∧ lead st' !! "email_body" = Some (VStr (Py.strip body)).
Proof.
  intros Hgen Hpre Hsubject. rewrite draft_email_run, Hgen. unfold draft_parse.
  destruct (split1_first "Subject" ":" pre (subject +:+ "Body:" +:+ body) Hpre)
    as [Hsplit Hcontains].
  change ("Subject" +:+ String ":" "") with "Subject:" in Hsplit, Hcontains.
  rewrite Hcontains, Hsplit. cbn [item1].
  destruct (split1_first "Body" ":" subject body Hsubject) as [Hsplit' Hcontains'].
  change ("Body" +:+ String ":" "") with "Body:" in Hsplit', Hcontains'.
  rewrite Hcontains', Hsplit'. cbn [Py.unpack2].
  eexists. split; [done|]. simpl. by rewrite lookup_insert_ne, !lookup_insert_eq.
Qed.

(** The layout of the prompt: a subject line, a blank line, the body. *)
Lemma draft_email_round_trip_witness :
  ∃ st',
    draft_email Scripted.backend
      (MkSt (Scripted.script
               [Ok ("" +:+ "Subject:" +:+ Cases.subject_part +:+ "Body:" +:+ Cases.body_part)]
               [] []) Scripted.ada)
    = (Ok (), st')
    ∧ lead st' !! "email_subject" = Some (VStr "Hello Ada")
    ∧ lead st' !! "email_body" = Some (VStr "Shall we talk?").
Proof.
  assert (Hgen : generate Scripted.backend (draft_prompt Scripted.ada) 128
                   (Scripted.script
                      [Ok ("" +:+ "Subject:" +:+ Cases.subject_part +:+ "Body:"
                           +:+ Cases.body_part)] [] [])
                 = (Ok ("" +:+ "Subject:" +:+ Cases.subject_part +:+ "Body:"
                        +:+ Cases.body_part), Scripted.script [] [] []))
    by (vm_compute; reflexivity).
  destruct (draft_email_round_trip Scripted.backend (MkSt _ _) _ _ _ _ Hgen)
    as (st' & Hrun & Hsubject & Hbody); [vm_compute; reflexivity..|].
  exists st'. split_and!; [exact Hrun| |].
  - rewrite Hsubject. vm_compute. reflexivity.
  - rewrite Hbody. vm_compute. reflexivity.
Defined.

(** X9: for every completion text the drafting stage returns and
    [email_subject] is a string. Without a [Subject:] marker it is
    "Quick note for " followed by [str] of [lead.get('first_name')], hence
    "Quick note for None" for a record without first name; with the marker
    and no [Body:] after it, it is the trimmed text after the marker. *)
Theorem draft_email_subject {W} (B : Backend W) st out w :
  generate B (draft_prompt (lead st)) 128 (world st) = (Ok out, w) →
  ∃ st' subject,
    draft_email B st = (Ok (), st')
    ∧ lead st' !! "email_subject" = Some (VStr subject)
    ∧ (Py.contains "Subject:" out = false →
       subject = "Quick note for " +:+ Py.str (lead_get (lead st) "first_name")
       ∧ (lead st !! "first_name" = None → subject = "Quick note for None"))
    ∧ (Py.contains "Subject:" out = true →
       ∃ before parts,
         Py.split1 "Subject:" out = [before; parts]
         ∧ (Py.contains "Body:" parts = false → subject = Py.strip parts)).
Proof.
  intros Hgen. rewrite draft_email_run, Hgen. unfold draft_parse.
  destruct (Py.contains "Subject:" out) eqn:Hs.
  - destruct (PyFacts.split1_contains _ _ Hs) as (before & parts & Hsplit & _).
    rewrite Hsplit. cbn [item1].
    destruct (Py.contains "Body:" parts) eqn:Hb.
    + destruct (PyFacts.split1_contains _ _ Hb) as (subj & bod & Hsplit' & _).
      rewrite Hsplit'. cbn [Py.unpack2].
      eexists _, _. split; [reflexivity|]. simpl.
      rewrite lookup_insert_ne, lookup_insert_eq by done.
      split_and!; [done..|]. intros _. exists before, parts.
      split; [done|congruence].
    + eexists _, _. split; [reflexivity|]. simpl.
      rewrite lookup_insert_ne, lookup_insert_eq by done.
      split_and!; [done..|]. intros _. by exists before, parts.
  - eexists _, _. split; [reflexivity|]. simpl.
    rewrite lookup_insert_ne, lookup_insert_eq by done.
    split_and!; [done| |done]. intros _. split; [done|].
    unfold lead_get. by intros ->.
Qed.

(** A record without first name and a completion without markers. *)
Lemma draft_email_subject_witness :
  ∃ st',
    draft_email Scripted.backend
      (MkSt (Scripted.script [Ok "Shall we talk?"] [] []) (delete "first_name" Scripted.ada))
    = (Ok (), st')
    ∧ lead st' !! "email_subject" = Some (VStr "Quick note for None").
Proof.
  assert (Hgen : generate Scripted.backend
                   (draft_prompt (delete "first_name" Scripted.ada)) 128
                   (Scripted.script [Ok "Shall we talk?"] [] [])
                 = (Ok "Shall we talk?", Scripted.script [] [] []))
    by (vm_compute; reflexivity).
  destruct (draft_email_subject Scripted.backend (MkSt _ _) _ _ Hgen)
    as (st' & subject & Hrun & Hsubject & Hnone & _).
  exists st'. split; [exact Hrun|]. rewrite Hsubject.
  destruct Hnone as [_ ->]; [vm_compute; reflexivity..|done].
Defined.


(** * More on delivery and response simulation *)

(** X10: for a priority below 3, and for any integer priority that is
    neither 3 nor at least 4, the response stage draws no random number and
    asks for no completion: the world is as it was, and the record gets
    [no_response], an empty [response_text] and [No Response]. A record
    without the key counts as priority 3, so this needs the key. *)
Theorem simulate_low_priority {W} (B : Backend W) st p :
  default (VInt 3) (lead st !! "priority") = VInt p →
  reply_threshold p = None →
  simulate_and_classify_responses B st
  = (Ok (), MkSt (world st) (not_simulated (lead st))).
Proof.
  intros Hp Ht. unfold reply_threshold in Ht.
  destruct (4 <=? p) eqn:Hhigh; [done|]. destruct (p =? 3) eqn:Hthree; [done|].
  unfold simulate_and_classify_responses, simulate_elif, lift, get_default, setitem,
    mbind, M_bind, mret, M_ret.
  rewrite Hp. simpl. rewrite Hhigh. simpl. rewrite Hp. simpl. by rewrite Hthree.
Qed.

(** A lead of priority 2. *)
Lemma simulate_low_priority_witness :
  simulate_and_classify_responses Scripted.backend
    (MkSt (Scripted.script [Ok "unused"] [] [Q2Qc 0]) (<["priority" := VInt 2]> Scripted.ada))
  = (Ok (), MkSt (Scripted.script [Ok "unused"] [] [Q2Qc 0])
               (not_simulated (<["priority" := VInt 2]> Scripted.ada))).
Proof.
  assert (Hp : default (VInt 3) ((<["priority" := VInt 2]> Scripted.ada) !! "priority")
               = VInt 2) by (vm_compute; reflexivity).
  assert (Ht : reply_threshold 2 = None) by reflexivity.
  exact (simulate_low_priority Scripted.backend
           (MkSt (Scripted.script [Ok "unused"] [] [Q2Qc 0])
                 (<["priority" := VInt 2]> Scripted.ada)) 2 Hp Ht).
Defined.

(** X11: for a priority of 4 or more the stage draws one random number and
    simulates a reply exactly when it is below 0.8; for priority 3, which
    is also what a record without the key counts as, exactly when it is
    below 0.25. When the draw is not below the threshold nothing else is
    drawn or asked: the record gets [no_response]. When it is below, the
    stage cannot end with [no_response]: if it returns, the status is
    [replied]. *)
Theorem simulate_draw {W} (B : Backend W) st p t r w1 :
  default (VInt 3) (lead st !! "priority") = VInt p →
  reply_threshold p = Some t →
  random B (world st) = (r, w1) →
  if bool_decide (r < t)%Qc
  then ∀ st', simulate_and_classify_responses B st = (Ok (), st') →
              lead st' !! "status" = Some (VStr "replied")
  else simulate_and_classify_responses B st
       = (Ok (), MkSt w1 (not_simulated (lead st))).
Proof.
  intros Hp Ht Hr. unfold reply_threshold in Ht.
  unfold simulate_and_classify_responses, simulate_elif, llm_generate, call_raising,
    call, reads, lift, get_default, setitem, mbind, M_bind, mret, M_ret.
  rewrite Hp. simpl.
  destruct (4 <=? p) eqn:Hhigh; simplify_eq.
  - simpl. rewrite Hr. simpl. case_bool_decide as Hlt.
    + intros st'. repeat (case_match; simplify_eq/=); try done.
      intros; simplify_eq. simpl. by simplify_map_eq.
    + simpl. rewrite Hp. simpl. assert (Hne : (p =? 3) = false) by lia. by rewrite Hne.
  - destruct (p =? 3) eqn:Hthree; simplify_eq.
    repeat (progress (simpl; rewrite ?Hp, ?Hthree, ?Hr)).
    case_bool_decide as Hlt.
    + intros st'. repeat (case_match; simplify_eq/=); try done.
      intros; simplify_eq. simpl. by simplify_map_eq.
    + done.
Qed.

(** A lead of priority 5 and a draw of 0.9. *)
Lemma simulate_draw_witness :
  simulate_and_classify_responses Scripted.backend
    (MkSt (Scripted.script [Ok "unused"] [] [Q2Qc (9 # 10)]) Scripted.ada_scored)
  = (Ok (), MkSt (Scripted.script [Ok "unused"] [] []) (not_simulated Scripted.ada_scored)).
Proof.
  assert (Hp : default (VInt 3) (Scripted.ada_scored !! "priority") = VInt 5)
    by (vm_compute; reflexivity).
  assert (Ht : reply_threshold 5 = Some (Q2Qc (8 # 10))) by reflexivity.
  assert (Hr : random Scripted.backend (Scripted.script [Ok "unused"] [] [Q2Qc (9 # 10)])
               = (Q2Qc (9 # 10), Scripted.script [Ok "unused"] [] [])) by reflexivity.
  pose proof (simulate_draw Scripted.backend
                (MkSt (Scripted.script [Ok "unused"] [] [Q2Qc (9 # 10)])
                      Scripted.ada_scored) 5 _ _ _ Hp Ht Hr) as Hdraw.
  rewrite bool_decide_eq_false_2 in Hdraw; [exact Hdraw|].
  apply Qcle_not_lt. by vm_compute.
Defined.

(** X12: delivery never raises and writes nothing but [status]. When the
    record lacks [email_subject] or [email_body], nothing is handed to the
    SMTP server and [status] is [send_error: ] followed by the quoted name
    of the missing key. Otherwise the message goes out with the record's
    [email], subject and body, and [status] is [sent] when the hand-off
    returns and [send_error: ] followed by its detail when it raises. *)
Theorem deliver_outcome {W} (B : Backend W) args st :
  ∃ st',
    deliver B args st = (Ok (), st')
    ∧ (∀ k, k ≠ "status" → lead st' !! k = lead st !! k)
    ∧ (lead st !! "email_subject" = None ∨ lead st !! "email_body" = None →
       world st' = world st
       ∧ ∃ key, key ∈ ["email_subject"; "email_body"]
                ∧ lead st' !! "status" = Some (VStr ("send_error: '" +:+ key +:+ "'")))
    ∧ (∀ subject body r w,
         lead st !! "email_subject" = Some subject →
         lead st !! "email_body" = Some body →
         send_email B (smtp_host args) (smtp_port args) (from_addr args)
           (lead_get (lead st) "email") subject body (world st) = (r, w) →
         world st' = w
         ∧ lead st' !! "status"
           = Some (VStr match r with
                        | Ok _ => "sent"
                        | Raise e => "send_error: " +:+ exn_detail e
                        end)).
Proof.
  destruct (deliver B args st) as [r st'] eqn:Hrun. exists st'.
  split_and!.
  - rewrite deliver_cases in Hrun. repeat case_match; by simplify_eq.
  - intros k Hk. by apply (deliver_frame B args st r st' k Hrun).
  - rewrite deliver_cases in Hrun. intros [Hnone|Hnone].
    + rewrite Hnone in Hrun. simplify_eq. split; [done|].
      exists "email_subject". split; [by left|]. simpl. by rewrite lookup_insert_eq.
    + rewrite Hnone in Hrun. destruct (lead st !! "email_subject"); simplify_eq.
      * split; [done|]. exists "email_body". split; [by right; left|].
        simpl. by rewrite lookup_insert_eq.
      * split; [done|]. exists "email_subject". split; [by left|].
        simpl. by rewrite lookup_insert_eq.
  - intros subject body r0 w Hs Hb Hsend. rewrite deliver_cases, Hs, Hb, Hsend in Hrun.
    destruct r0 as [[]|e]; simplify_eq; simpl; by rewrite lookup_insert_eq.
Qed.

(** X13: a record that leaves an iteration with the status [no_response] or
    [replied] has been through every stage: its [priority] is a
    non-negative integer, and its persona, persona description, priority
    reason, subject, body, response text and response category are
    strings. *)
Theorem completed_record {W} (B : Backend W) args st st' :
  process_lead B args st = (Ok (), st') →
  lead st' !! "status" = Some (VStr "no_response")
  ∨ lead st' !! "status" = Some (VStr "replied") →
  (∃ n : Z, lead st' !! "priority" = Some (VInt n) ∧ 0 ≤ n)
  ∧ Forall (λ k, ∃ s, lead st' !! k = Some (VStr s))
           ["persona"; "persona_desc"; "priority_reason"; "email_subject";
            "email_body"; "response_text"; "response_category"].
Proof.
  unfold process_lead, try_except, setitem. intros Hrun Hstatus.
  destruct (stages B args st) as [[[]|e] s5] eqn:Hstages; simplify_eq.
  2:{ simpl in Hstatus. rewrite lookup_insert_eq in Hstatus.
      destruct Hstatus as [?|?]; discriminate. }
  clear Hstatus. unfold stages in Hstages.
  apply bind_inv in Hstages as [([] & s1 & H1 & H)|(? & ? & ?)]; [|done].
  apply bind_inv in H as [([] & s2 & H2 & H)|(? & ? & ?)]; [|done].
  apply bind_inv in H as [([] & s3 & H3 & H)|(? & ? & ?)]; [|done].
  apply bind_inv in H as [([] & s4 & H4 & H5)|(? & ? & ?)]; [|done].
  (* what each stage leaves *)
  assert (Hpersona : ∃ a b, lead s1 !! "persona" = Some (VStr a)
                            ∧ lead s1 !! "persona_desc" = Some (VStr b)).
  { rewrite enrich_lead_run in H1.
    destruct (generate B _ 128 (world st)) as [[out|] ?]; [|done].
    destruct (enrich_parse out); simplify_eq. unfold enriched, parsed_get_default.
    simpl. eexists _, _. by rewrite lookup_insert_ne, !lookup_insert_eq. }
  assert (Hscore : ∃ n c, 0 ≤ n ∧ lead s2 !! "priority" = Some (VInt n)
                          ∧ lead s2 !! "priority_reason" = Some (VStr c)).
  { pose proof H2 as H2'. rewrite score_lead_run in H2'.
    destruct (generate B _ 128 (world s1)) as [[out|] ?]; [|done].
    unfold score_parse in H2'.
    destruct (for_each _ _ _) as [[n c]|] eqn:Hparse; simplify_eq.
    exists n, c. simpl. rewrite lookup_insert_ne, !lookup_insert_eq by done.
    split_and!; [|done..]. by eapply score_lines_nonneg. }
  assert (Hdraft : ∃ a b, lead s3 !! "email_subject" = Some (VStr a)
                          ∧ lead s3 !! "email_body" = Some (VStr b)).
  { pose proof H3 as H3'. rewrite draft_email_run in H3'.
    destruct (generate B _ 128 (world s2)) as [[out|] ?]; [|done].
    destruct (draft_parse out _) as [[a b]|]; simplify_eq.
    exists a, b. simpl. by rewrite lookup_insert_ne, !lookup_insert_eq. }
  assert (Hsim : ∃ a b, lead st' !! "response_text" = Some (VStr a)
                        ∧ lead st' !! "response_category" = Some (VStr b)).
  { apply simulate_run in H5 as [->|(?&reply&?&?&tok&_&_&_&->)];
      unfold not_simulated, simulated; eexists _, _;
      by rewrite lookup_insert_ne, !lookup_insert_eq. }
  destruct Hpersona as (a1 & b1 & Ha1 & Hb1), Hscore as (n & c & Hn & Hprio & Hreason),
    Hdraft as (a3 & b3 & Ha3 & Hb3), Hsim as (a5 & b5 & Ha5 & Hb5).
  (* carried to the end by the stages that follow *)
  assert (Hlate : ∀ k, k ∉ ["status"; "response_text"; "response_category"] →
                       lead st' !! k = lead s3 !! k).
  { intros k Hk. rewrite (simulate_frame B _ _ _ k H5 Hk).
    apply (deliver_frame B args _ _ _ k H4).
    rewrite !not_elem_of_cons in Hk. tauto. }
  assert (Hprio5 : lead st' !! "priority" = Some (VInt n)).
  { rewrite Hlate by solve_not_in.
    by rewrite (draft_email_frame B _ _ _ "priority" H3) by solve_not_in. }
  split.
  - by exists n.
  - repeat constructor.
    + exists a1. rewrite Hlate by solve_not_in.
      rewrite (draft_email_frame B _ _ _ "persona" H3) by solve_not_in.
      by rewrite (score_lead_frame B _ _ _ "persona" H2) by solve_not_in.
    + exists b1. rewrite Hlate by solve_not_in.
      rewrite (draft_email_frame B _ _ _ "persona_desc" H3) by solve_not_in.
      by rewrite (score_lead_frame B _ _ _ "persona_desc" H2) by solve_not_in.
    + exists c. rewrite Hlate by solve_not_in.
      by rewrite (draft_email_frame B _ _ _ "priority_reason" H3) by solve_not_in.
    + exists a3. by rewrite Hlate by solve_not_in.
    + exists b3. by rewrite Hlate by solve_not_in.
    + by exists a5.
    + by exists b5.
Qed.

(** A quiet run of one iteration. *)
Lemma completed_record_witness :
  ∃ st',
    process_lead Scripted.backend Scripted.args
      (MkSt (Scripted.script Scripted.quiet_run [Ok ()] []) Scripted.ada)
    = (Ok (), st')
    ∧ ∃ n : Z, lead st' !! "priority" = Some (VInt n) ∧ 0 ≤ n.
Proof.
  assert (Hrun : ∃ st', process_lead Scripted.backend Scripted.args
                   (MkSt (Scripted.script Scripted.quiet_run [Ok ()] []) Scripted.ada)
                 = (Ok (), st')
                 ∧ lead st' !! "status" = Some (VStr "no_response"))
    by (eexists; split; [vm_compute; reflexivity|vm_compute; reflexivity]).
  destruct Hrun as (st' & Hrun & Hstatus). exists st'. split; [exact Hrun|].
  destruct (completed_record Scripted.backend Scripted.args _ _ Hrun (or_introl Hstatus))
    as [(n & Hn & Hpos) _].
  exists n. split; [exact Hn|exact Hpos].
Defined.


(** * The persona breakdown *)

Lemma sum_list_zero {A} (ks : list A) : sum_list ((λ _, 0%nat) <$> ks) = 0%nat.
Proof. induction ks as [|k ks IH]; [done|]. by rewrite fmap_cons. Qed.

Lemma sum_list_plus {A} (f g : A → nat) (ks : list A) :
  sum_list ((λ k, f k + g k)%nat <$> ks)
  = (sum_list (f <$> ks) + sum_list (g <$> ks))%nat.
Proof.
  induction ks as [|k ks IH]; [done|]. rewrite !fmap_cons. simpl. rewrite IH. lia.
Qed.

Lemma sum_list_indicator `{EqDecision A} (x : A) (ks : list A) :
  NoDup ks → x ∈ ks →
  sum_list ((λ k, if decide (x = k) then 1 else 0)%nat <$> ks) = 1%nat.
Proof.
  induction ks as [|k ks IH]; intros Hnd Hin; [by apply elem_of_nil in Hin|].
  apply NoDup_cons in Hnd as [Hk Hnd]. rewrite fmap_cons. simpl.
  destruct (decide (x = k)) as [->|Hne].
  - assert (Hz : sum_list ((λ k0, if decide (k = k0) then 1 else 0)%nat <$> ks) = 0%nat).
    { clear IH Hin Hnd. induction ks as [|k' ks IH]; [done|].
      rewrite fmap_cons. simpl. apply not_elem_of_cons in Hk as [Hne Hk].
      rewrite decide_False by done. by apply IH. }
    by rewrite Hz.
  - apply elem_of_cons in Hin as [?|Hin]; [done|]. by rewrite IH.
Qed.

(** Counting each key of a duplicate-free list that covers the cells
    counts every cell once. *)
Lemma sum_counts `{EqDecision A} (cells ks : list A) :
  NoDup ks → (∀ x, x ∈ cells → x ∈ ks) →
  sum_list ((λ v, length (filter (λ c, c = v) cells)) <$> ks) = length cells.
Proof.
  intros Hnd. induction cells as [|x cells IH]; intros Hin.
  - apply sum_list_zero.
  - pose proof (IH (λ y Hy, Hin y (proj2 (elem_of_cons _ _ _) (or_intror Hy)))) as IH'.
    pose proof (sum_list_indicator x ks Hnd
                  (Hin x (proj2 (elem_of_cons _ _ _) (or_introl eq_refl)))) as Hone.
    transitivity (sum_list ((λ k, if decide (x = k) then 1 else 0)%nat <$> ks)
                  + sum_list ((λ v, length (filter (λ c, c = v) cells)) <$> ks))%nat.
    + rewrite <- sum_list_plus. f_equal.
      apply list_fmap_ext. intros _ v _. rewrite filter_cons.
      by destruct (decide (x = v)).
    + by rewrite Hone, IH'.
Qed.

Lemma length_filter_fmap {A} `{EqDecision B} (f : A → B) (v : B) (l : list A) :
  length (filter (λ c, c = v) (f <$> l)) = length (filter (λ a, f a = v) l).
Proof.
  induction l as [|a l IH]; [done|]. rewrite fmap_cons, !filter_cons.
  destruct (decide (f a = v)); simpl; by rewrite IH.
Qed.

(** X14: the persona breakdown of the report lists each persona once, a row
    without persona counting as [Unknown]; the count of a persona is the
    number of rows that have it; and the counts add up to the number of
    rows, or the breakdown is empty when the table has no [persona]
    column. *)
Theorem persona_counts_total df :
  NoDup (fst <$> persona_counts df)
  ∧ Forall (λ vc : pyval * nat,
       vc.1 ≠ VNaN ∧ vc.1 ≠ VNone ∧ (1 ≤ vc.2)%nat
       ∧ vc.2 = length (filter (λ row : Lead,
                   fillna_unknown (default VNaN (row !! "persona")) = vc.1) (rows df)))
      (persona_counts df)
  ∧ sum_list (snd <$> persona_counts df)
    = (if bool_decide ("persona" ∈ columns df) then length (rows df) else 0%nat).
Proof.
  unfold persona_counts, column. case_bool_decide as Hcol.
  2:{ split_and!; [constructor|constructor|done]. }
  unfold value_counts. rewrite <- !list_fmap_compose.
  set (cells := (fillna_unknown ∘ (λ row : Lead, default VNaN (row !! "persona")))
                  <$> rows df).
  split_and!.
  - rewrite (list_fmap_ext _ id (remove_dups cells)) by done.
    rewrite list_fmap_id. apply NoDup_remove_dups.
  - apply Forall_fmap, Forall_forall. intros v Hv. apply (proj1 (elem_of_remove_dups _ _)) in Hv. simpl.
    pose proof (length_filter_fmap
      (fillna_unknown ∘ (λ row : Lead, default VNaN (row !! "persona"))) v (rows df))
      as Hcount.
    split_and!.
    + intros ->. unfold cells in Hv. apply list_elem_of_fmap in Hv as (row & Heq & _).
      simpl in Heq. by destruct (default VNaN (row !! "persona")).
    + intros ->. unfold cells in Hv. apply list_elem_of_fmap in Hv as (row & Heq & _).
      simpl in Heq. by destruct (default VNaN (row !! "persona")).
    + destruct (filter (λ c, c = v) cells) eqn:Hf; simpl; [|lia].
      assert (v ∈ filter (λ c, c = v) cells) by by apply list_elem_of_filter.
      rewrite Hf in *. by apply elem_of_nil in H.
    + exact Hcount.
  - rewrite (list_fmap_ext _ (λ v, length (filter (λ c, c = v) cells))
               (remove_dups cells)) by done.
    rewrite sum_counts.
    + unfold cells. by rewrite length_fmap.
    + apply NoDup_remove_dups.
    + intros x. by rewrite elem_of_remove_dups.
Qed.


(** * The completion client *)

Lemma rstrip_cons c s :
  Py.rstrip (String c s)
  = match Py.rstrip s with
    | "" => if Py.isspace c then "" else String c ""
    | r => String c r
    end.
Proof. done. Qed.

Lemma rstrip_idemp s : Py.rstrip (Py.rstrip s) = Py.rstrip s.
Proof.
  induction s as [|c s IH]; [done|]. rewrite rstrip_cons.
  destruct (Py.rstrip s) as [|a r] eqn:Hr.
  - destruct (Py.isspace c) eqn:Hc; [done|]. rewrite rstrip_cons. simpl. by rewrite Hc.
  - by rewrite rstrip_cons, IH.
Qed.

Lemma lstrip_head s :
  Py.lstrip s = "" ∨ ∃ c r, Py.lstrip s = String c r ∧ Py.isspace c = false.
Proof.
  induction s as [|c s IH]; [by left|]. cbn [Py.lstrip].
  destruct (Py.isspace c) eqn:Hc; [done|]. right. by exists c, s.
Qed.

Lemma rstrip_head c r :
  Py.isspace c = false → ∃ r', Py.rstrip (String c r) = String c r'.
Proof.
  intros Hc. rewrite rstrip_cons. destruct (Py.rstrip r); [|by eexists].
  rewrite Hc. by eexists.
Qed.

(** Trimming a trimmed string changes nothing. *)
Lemma strip_idemp s : Py.strip (Py.strip s) = Py.strip s.
Proof.
  unfold Py.strip. destruct (lstrip_head s) as [->|(c & r & -> & Hc)]; [done|].
  destruct (rstrip_head c r Hc) as [r' Hr]. rewrite Hr.
  cbn [Py.lstrip]. rewrite Hc, <- Hr. apply rstrip_idemp.
Qed.

Lemma truthy_OStr s : s ≠ "" → Obj.truthy (OStr s) = true.
Proof. intros Hs. simpl. by rewrite bool_decide_eq_false_2. Qed.

Lemma getattr_choices resp choice rest :
  Obj.getattr resp "choices" = OList (choice :: rest) →
  Obj.hasattr resp "choices" = true
  ∧ Obj.len (Obj.getattr resp "choices") = Some (S (length rest))
  ∧ Obj.item0 (Obj.getattr resp "choices") = Some choice
  ∧ Obj.isdict resp = false.
Proof.
  intros Hc. rewrite Hc. destruct resp as [| | | |attrs]; try done.
  simpl in *. split_and!; try done.
  destruct (Obj.lookup "choices" attrs); [|done]. by apply bool_decide_eq_true_2.
Qed.

Section ClientFacts.
Context {W : Type} (sdk : Sdk W).

(** X15: on the response object of the SDK, whose [choices] is a non-empty
    list, the text is taken from the first choice only: its
    [message.content] when that is a non-empty string, else its [text]
    when that is a non-empty string, each one trimmed; when both are
    missing, [None] or empty the result is [str(resp)]. *)
Theorem extract_text_object resp choice rest :
  Obj.getattr resp "choices" = OList (choice :: rest) →
  let content := Obj.getattr (Obj.getattr choice "message") "content" in
  let text := Obj.getattr choice "text" in
  (∀ s, content = OStr s → s ≠ "" → extract_text sdk resp = Py.strip s)
  ∧ (Obj.truthy content = false →
     ∀ t, text = OStr t → t ≠ "" → extract_text sdk resp = Py.strip t)
  ∧ (Obj.truthy content = false → Obj.truthy text = false →
     extract_text sdk resp = str_of sdk resp).
Proof.
  intros Hc content text.
  destruct (getattr_choices _ _ _ Hc) as (Hhas & Hlen & Hitem & Hdict).
  unfold extract_text, object_branch, dict_branch.
  rewrite Hhas, Hlen, Hitem, Hdict. cbn [length]. rewrite bool_decide_eq_true_2 by lia.
  fold content text. split_and!.
  - intros s Hs Hne. destruct (Obj.getattr choice "message") eqn:Hm;
      try (subst content; simpl in Hs; discriminate).
    cbn [Obj.is_none]. rewrite Hs, (truthy_OStr s Hne). done.
  - intros Hfalse t Ht Hne. rewrite Hfalse, Ht, (truthy_OStr t Hne).
    by destruct (Obj.is_none _).
  - intros Hfalse Htext. rewrite Hfalse, Htext. by destruct (Obj.is_none _).
Qed.

(** X16: on a response that is a [dict] whose first choice is a [dict], the
    text is the trimmed [content] of its [message] when that is a
    non-empty string, and the trimmed [text] of the choice when it has no
    [message]; a [dict] without choices gives [str(resp)]. *)
Theorem extract_text_dict entries :
  let resp := ODict entries in
  (∀ first rest,
     Obj.get resp "choices" = OList (ODict first :: rest) →
     (∀ message s,
        Obj.get (ODict first) "message" = ODict message →
        Obj.get (ODict message) "content" = OStr s → s ≠ "" →
        extract_text sdk resp = Py.strip s)
     ∧ (∀ t,
        Obj.truthy (Obj.get (ODict first) "message") = false →
        Obj.get (ODict first) "text" = OStr t → t ≠ "" →
        extract_text sdk resp = Py.strip t))
  ∧ (Obj.truthy (Obj.get resp "choices") = false →
     extract_text sdk resp = str_of sdk resp).
Proof.
  intros resp. unfold extract_text, object_branch, dict_branch.
  cbn [Obj.hasattr resp Obj.isdict]. split.
  - intros first rest Hc. rewrite Hc.
    assert (Hchoices : Obj.or (OList (ODict first :: rest)) (OList [])
                       = OList (ODict first :: rest)) by done.
    rewrite Hchoices. cbn [Obj.len length Obj.item0].
    rewrite bool_decide_eq_true_2 by lia. cbn [Obj.isdict]. split.
    + intros message s Hm Hs Hne. rewrite Hm.
      assert (Hor : Obj.or (ODict message) (ODict []) = ODict message).
      { by destruct message. }
      rewrite Hor, Hs, (truthy_OStr s Hne). done.
    + intros t Hm Ht Hne. unfold Obj.or. rewrite Hm.
      change (Obj.truthy (Obj.get (ODict []) "content")) with false.
      cbn [Obj.isdict andb]. rewrite Ht, (truthy_OStr t Hne). done.
  - intros Hfalse. unfold Obj.or. rewrite Hfalse. cbn [Obj.len length].
    by rewrite bool_decide_eq_false_2 by lia.
Qed.

(** X17: whatever the response, the text [generate] extracts from it is
    either [str(resp)] or a string without leading and trailing white
    space. *)
Theorem extract_text_trimmed resp :
  extract_text sdk resp = str_of sdk resp
  ∨ Py.strip (extract_text sdk resp) = extract_text sdk resp.
Proof.
  assert (Hret : ∀ o s, return_strip o = Return s → Py.strip s = s).
  { intros [|s0| | |] s; simpl; try done. intros [= <-]. apply strip_idemp. }
  unfold extract_text.
  destruct (object_branch resp) as [s| |] eqn:Ho; [right|..|by left].
  - revert Ho. unfold object_branch.
    repeat case_match; try done; eauto; intros [= <-]; eauto.
  - destruct (dict_branch resp) as [s| |] eqn:Hd; [right|by left..].
    revert Hd. unfold dict_branch.
    repeat case_match; try done; eauto; intros [= <-]; eauto.
Qed.

(** X18: when the call that answers, the first one or the second one made
    after the first raised a [TypeError] or an instance of a subclass of
    it, returns a completion whose first choice has a non-empty
    [message.content], [generate] returns that content trimmed, in the
    world that call left. *)
Theorem generate_chat_completion model prompt n w w1 resp choice rest s :
  Obj.getattr resp "choices" = OList (choice :: rest) →
  Obj.getattr (Obj.getattr choice "message") "content" = OStr s →
  s ≠ "" →
  (create sdk (first_call model prompt n) w = (Ok resp, w1)
   ∨ ∃ e w0, create sdk (first_call model prompt n) w = (Raise e, w0)
       ∧ is_TypeError sdk e = true
       ∧ create sdk (second_call model prompt n) w0 = (Ok resp, w1)) →
  LLMClient_generate sdk model prompt n w = (Ok (Py.strip s), w1).
Proof.
  intros Hc Hs Hne Hcall.
  assert (Htext : extract_text sdk resp = Py.strip s).
  { destruct (getattr_choices _ _ _ Hc) as (Hhas & Hlen & Hitem & Hdict).
    unfold extract_text, object_branch.
    rewrite Hhas, Hlen, Hitem. cbn [length]. rewrite bool_decide_eq_true_2 by lia.
    destruct (Obj.getattr choice "message") eqn:Hm; try (simpl in Hs; discriminate).
    cbn [Obj.is_none]. rewrite Hs, (truthy_OStr s Hne). done. }
  unfold LLMClient_generate.
  destruct Hcall as [->|(e & w0 & -> & He & ->)].
  - by rewrite Htext.
  - by rewrite He, Htext.
Qed.

(** X19: [generate] raises only what a call of the SDK raised: the
    exception of the first call when it is no instance of [TypeError], or
    the exception of the second call, made with [max_tokens] and without
    [reasoning_effort] in the world the first call left, after the first
    raised an instance of [TypeError], be it of a subclass. Reading the
    response never raises. *)
Theorem generate_raises model prompt n w e w' :
  LLMClient_generate sdk model prompt n w = (Raise e, w')
  ↔ (create sdk (first_call model prompt n) w = (Raise e, w')
     ∧ is_TypeError sdk e = false)
    ∨ (∃ e1 w1, create sdk (first_call model prompt n) w = (Raise e1, w1)
         ∧ is_TypeError sdk e1 = true
         ∧ create sdk (second_call model prompt n) w1 = (Raise e, w')).
Proof.
  unfold LLMClient_generate.
  destruct (create sdk (first_call model prompt n) w) as [[resp|e1] w1].
  - split; [done|]. by intros [[? _]|(? & ? & ? & _)].
  - destruct (is_TypeError sdk e1) eqn:He.
    + destruct (create sdk (second_call model prompt n) w1) as [[resp|e2] w2] eqn:H2.
      * split; [done|]. intros [[[= <- <-] ?]|(? & ? & [= <- <-] & _ & ?)]; congruence.
      * split.
        -- intros [= <- <-]. right. by exists e1, w1.
        -- intros [[[= <- <-] ?]|(? & ? & [= <- <-] & _ & ?)]; congruence.
    + split.
      * intros [= <- <-]. by left.
      * intros [[[= <- <-] ?]|(? & ? & [= <- <-] & ? & _)]; congruence.
Qed.

End ClientFacts.

Lemma extract_text_object_witness :
  extract_text Cases.fixed_sdk Cases.chat_completion = "priority: 4".
Proof.
  refine (proj1 (extract_text_object Cases.fixed_sdk Cases.chat_completion _ _ eq_refl)
            (" priority: 4" +:+ NL) eq_refl _).
  discriminate.
Defined.

Lemma generate_chat_completion_witness :
  LLMClient_generate Cases.fixed_sdk "openai/gpt-oss-20b" "Score this lead" 128 ()
  = (Ok "priority: 4", ()).
Proof.
  refine (generate_chat_completion Cases.fixed_sdk _ _ _ _ _ Cases.chat_completion _ _
            (" priority: 4" +:+ NL) eq_refl eq_refl _ (or_introl eq_refl)).
  discriminate.
Defined.
